(** * PlexiPDF: the PDF engine wrapper ([pdf_engine.py])

    [PDFEngine] is a thin class around a PyMuPDF ([fitz]) document.  The
    development has these layers:

    - [Py]: the few Python notions the engine relies on (values, truthiness,
      [==], exceptions, generators);
    - [fitz]: a model of the part of PyMuPDF that the engine calls.  PyMuPDF is
      a third-party library and not part of the repository, so this layer
      records its documented behaviour and nothing more;
    - [PDFEngine]: the methods of [pdf_engine.py], one definition per method,
      written over the two layers above;
    - [PDFEditor] and [FieldsDialog]: the methods of [editor_gui.py] that
      drive the engine (page navigation and the form-field dialog);
    - [Any]: [update_form_field], [save] and [save_file] once more, with the
      library's [Widget.update] and [Document.save] as parameters, for what
      holds whatever the library does;
    - [pymupdf]: [Widget.update] by field type and field tree (names,
      buttons, empty texts, kids of one field). *)

From stdpp Require Import base numbers strings list gmap pretty.
From Stdlib Require Import Floats.PrimFloat.
From Stdlib Require Numbers.Cyclic.Int63.Uint63.

Local Open Scope Z_scope.

(* ===================================================================== *)
(** ** Python values, exceptions, generators *)
(* ===================================================================== *)

Module Py.

(** The Python values that occur as widget attributes and return values. *)
Inductive val : Type :=
| None_
| Bool (b : bool)
| Int (z : Z)
| Str (s : string).

#[global] Instance val_eq_dec : EqDecision val.
Proof. solve_decision. Defined.

(** [bool(v)]: [None], [False], [0] and the empty string are falsy. *)
Definition truthy (v : val) : bool :=
  match v with
  | None_ => false
  | Bool b => b
  | Int z => negb (z =? 0)
  | Str s => negb (String.eqb s "")
  end.

(** [a == b].  Booleans compare as the integers 0 and 1; a string is only
    equal to the same string; [None] only to [None]. *)
Definition as_int (v : val) : option Z :=
  match v with
  | Bool b => Some (if b then 1 else 0)
  | Int z => Some z
  | _ => None
  end.

Definition eq (a b : val) : bool :=
  match a, b with
  | None_, None_ => true
  | Str s, Str t => String.eqb s t
  | _, _ =>
      match as_int a, as_int b with
      | Some x, Some y => x =? y
      | _, _ => false
      end
  end.

(** Exceptions.  [ValidationError] is the name the specification uses for a
    rejected field value; nothing in the engine raises it. *)
Inductive exn : Type :=
| AttributeError
| ValueError (msg : string)
| OSError (msg : string)
| ValidationError.

#[global] Instance exn_eq_dec : EqDecision exn.
Proof. solve_decision. Defined.

(** The outcome of a call: a value, or an exception in flight. *)
Inductive result (A : Type) : Type :=
| Ok (a : A)
| Raise (e : exn).
#[global] Arguments Ok {A} a.
#[global] Arguments Raise {A} e.

Definition bind {A B} (r : result A) (k : A → result B) : result B :=
  match r with
  | Ok a => k a
  | Raise e => Raise e
  end.

(** What a call returned, and what it raised. *)
Definition returned {A} (r : result A) : option A :=
  match r with
  | Ok a => Some a
  | Raise _ => None
  end.

Definition raised {A} (r : result A) : option exn :=
  match r with
  | Ok _ => None
  | Raise e => Some e
  end.

(** [try: body  except AttributeError: handler]. *)
Definition try_except_AttributeError {A} (body : result A) (handler : A)
  : result A :=
  match body with
  | Raise AttributeError => Ok handler
  | r => r
  end.

(** [x or []] for a value that is [None] or a list. *)
Definition or_empty {A} (x : option (list A)) : list A :=
  match x with
  | Some (a :: l) => a :: l
  | _ => []
  end.

(** A generator whose body has no side effect is determined by what a
    consumer sees when it keeps asking: the items yielded, in order, closed
    by [StopIteration] or by the exception the body raised.  A consumer that
    stops early never reaches the tail. *)
Inductive generator (A : Type) : Type :=
| StopIteration
| Yield (a : A) (rest : generator A)
| Throw (e : exn).
#[global] Arguments StopIteration {A}.
#[global] Arguments Yield {A} a rest.
#[global] Arguments Throw {A} e.

(** [for w in l: yield w], followed by the rest of the generator body. *)
Fixpoint yield_each {A} (l : list A) (rest : generator A) : generator A :=
  match l with
  | [] => rest
  | a :: l' => Yield a (yield_each l' rest)
  end.

(** [range(n)] for [n = len(...)]. *)
Definition range (n : nat) : list Z := Z.of_nat <$> seq 0 n.

End Py.

Notation "x ←ᵣ r ; k" := (Py.bind r (λ x, k))
  (at level 20, r at level 100, k at level 200, right associativity,
   only parsing).

(* ===================================================================== *)
(** ** The PyMuPDF objects the engine touches *)
(* ===================================================================== *)

Module fitz.

(** A widget annotation as stored in the PDF: partial name [/T], value [/V],
    the widget type as PyMuPDF numbers it, the display mode, the export
    values of a check box or radio button, and the value its appearance
    stream [/AP] was generated from. *)
Record Annot : Type := {
  a_name : Py.val;
  a_value : Py.val;
  a_type : Z;
  a_display : Z;
  a_states : list string;
  a_ap : Py.val
}.

#[global] Instance Annot_eq_dec : EqDecision Annot.
Proof. solve_decision. Defined.

(** [PDF_WIDGET_TYPE_*]. *)
Definition PDF_WIDGET_TYPE_CHECKBOX : Z := 2.
Definition PDF_WIDGET_TYPE_RADIOBUTTON : Z := 5.
Definition PDF_WIDGET_TYPE_TEXT : Z := 7.


(** A text run put on a page by [Page.insert_text]. *)
Record TextRun : Type := {
  tr_point : float * float;
  tr_text : string;
  tr_fontsize : float
}.

(** What [page.widgets()] does on a page: the attribute does not exist (an
    old build), or the call returns [None], or it returns the page's
    widgets. *)
Inductive widgets_attr : Type :=
| NoWidgetsAttr
| WidgetsNone
| WidgetsSeq (ws : list Annot).

Record PageData : Type := {
  pg_widgets : widgets_attr;
  pg_text : list TextRun
}.

(** The open document: its pages in page-tree order. *)
Abbreviation Document := (list PageData).

(** [len(doc)]. *)
Definition len (d : Document) : Z := Z.of_nat (length d).

(** A [Page] object is a handle on page [number] of the document. *)
Record Page : Type := { number : nat }.

(** [Document.load_page(page_id)].  A number at or beyond [len(doc)] raises
    [ValueError("page not in document")]; a negative number counts back from
    the end (the library adds [len(doc)] until the number is no longer
    negative).  On a document without pages that addition never ends for a
    negative number; the reading here raises in that one case. *)
Definition load_page (d : Document) (page_id : Z) : Py.result Page :=
  if (len d <=? page_id) || (len d =? 0) then
    Py.Raise (Py.ValueError "page not in document")
  else Py.Ok {| number := Z.to_nat (page_id `mod` len d) |}.

(** A [Widget] object: a Python-side copy of the attributes of the
    annotation at place [w_index] of page [w_page].  Assigning to an
    attribute changes the copy only; [Widget.update] writes it back. *)
Record Widget : Type := {
  w_page : nat;
  w_index : nat;
  field_name : Py.val;
  field_value : Py.val;
  field_type : Z;
  field_display : Z
}.

Definition widget_of (pno i : nat) (a : Annot) : Widget :=
  {| w_page := pno; w_index := i;
     field_name := a_name a; field_value := a_value a;
     field_type := a_type a; field_display := a_display a |}.

(** [page.widgets()]. *)
Definition Page_widgets (d : Document) (page : Page)
  : Py.result (option (list Widget)) :=
  match d !! number page with
  | Some pg =>
      match pg_widgets pg with
      | WidgetsSeq ws => Py.Ok (Some (imap (widget_of (number page)) ws))
      | WidgetsNone => Py.Ok None
      | NoWidgetsAttr => Py.Raise Py.AttributeError
      end
  | None => Py.Raise (Py.ValueError "orphaned object: parent is None")
  end.

(** [w.field_value = value]. *)
Definition set_field_value (w : Widget) (value : Py.val) : Widget :=
  {| w_page := w_page w; w_index := w_index w;
     field_name := field_name w; field_value := value;
     field_type := field_type w; field_display := field_display w |}.

(** The annotation a widget object describes, with a freshly generated
    appearance: the stream is rebuilt from the value being written. *)
Definition reflect (w : Widget) (old : Annot) : Annot :=
  {| a_name := field_name w; a_value := field_value w;
     a_type := field_type w; a_display := field_display w;
     a_states := a_states old; a_ap := field_value w |}.

Definition put_annot (w : Widget) (p : PageData) : PageData :=
  match pg_widgets p with
  | WidgetsSeq ws =>
      {| pg_widgets := WidgetsSeq (alter (reflect w) (w_index w) ws);
         pg_text := pg_text p |}
  | _ => p
  end.

(** [w.update()], read as the update of a named text widget that is a field
    of its own, with a text that is not empty: reflect the Python object in
    the PDF and regenerate the appearance stream.  What the library does
    with a widget without a name, with a button, with an empty text and with
    the kids of one field is in [pymupdf.Widget_update] below;
    [update_form_field_agree] relates the two. *)
Definition Widget_update (w : Widget) (d : Document) : Document :=
  alter (put_annot w) (w_page w) d.

(** [page.insert_text((x, y), text, fontsize=font_size)] for a text that is
    not empty: one more text run on the page. *)
Definition Page_insert_text (page : Page) (point : float * float)
    (text : string) (fontsize : float) (d : Document) : Document :=
  alter (λ p, {| pg_widgets := pg_widgets p;
                 pg_text := pg_text p ++
                   [{| tr_point := point; tr_text := text;
                       tr_fontsize := fontsize |}] |})
        (number page) d.

(** [fitz.Matrix(a, d)] and the pixmap of a page under it: rendering is a
    function of the page's content at the time of the call and the
    matrix. *)
Record Matrix : Type := { mx_a : float; mx_d : float }.

Record Pixmap : Type := {
  pix_source : option PageData;
  pix_matrix : Matrix
}.

Definition Page_get_pixmap (d : Document) (page : Page) (matrix : Matrix)
  : Pixmap :=
  {| pix_source := d !! number page; pix_matrix := matrix |}.

End fitz.

(* ===================================================================== *)
(** ** The file system as [Document.save] sees it *)
(* ===================================================================== *)

Module os.

(** What a path holds: a complete PDF (the document written to it), or the
    beginning of one, left by a write that stopped part-way. *)
Inductive file : Type :=
| Whole (d : fitz.Document)
| Partial (d : fitz.Document).

(** The calls that reach the file system. *)
Inductive call : Type :=
| DocSave (path : string) (incremental : bool)
| Rename (src dst : string).

(** How the device answers the next write. *)
Inductive device : Type :=
| Accepts
| Fails (e : Py.exn).

Record world : Type := {
  files : gmap string file;
  disk : device;
  calls : list call
}.

(** "Write to a temporary file, atomic rename": a save to some other path
    followed by a rename of that path onto the target. *)
Definition temp_then_rename (target : string) (cs : list call) : bool :=
  match cs with
  | [DocSave tmp _; Rename src dst] =>
      negb (String.eqb tmp target) && String.eqb src tmp
      && String.eqb dst target
  | _ => false
  end.

End os.

Module fitz_io.

(** [Document.save(path, incremental=...)] for a path and a flag the library
    accepts: the library opens [path] itself and streams the document into
    it.  When the device fails, the call raises and what was written so far
    stays at [path].  [Any.save] below takes the library's call as it
    comes, refusals of a path or a flag included. *)
Definition Document_save (d : fitz.Document) (path : string)
    (incremental : bool) (w : os.world) : Py.result unit * os.world :=
  let log := os.calls w ++ [os.DocSave path incremental] in
  match os.disk w with
  | os.Accepts =>
      (Py.Ok (),
       {| os.files := <[path := os.Whole d]> (os.files w);
          os.disk := os.disk w; os.calls := log |})
  | os.Fails e =>
      (Py.Raise e,
       {| os.files := <[path := os.Partial d]> (os.files w);
          os.disk := os.disk w; os.calls := log |})
  end.

End fitz_io.

(* ===================================================================== *)
(** ** [class PDFEngine] *)
(* ===================================================================== *)

(** The object: [self.doc] and [self.current_page]. *)
Record PDFEngine : Type := {
  doc : fitz.Document;
  current_page : Z
}.

Definition with_doc (self : PDFEngine) (d : fitz.Document) : PDFEngine :=
  {| doc := d; current_page := current_page self |}.

(** A method: from the object before the call to the outcome and the object
    after it. *)
Definition method (A : Type) : Type := PDFEngine → Py.result A * PDFEngine.

(** One entry of the list [list_form_fields] returns: the dict
    [{"name": ..., "value": ..., "type": ...}]. *)
Record FieldDict : Type := {
  fd_name : Py.val;
  fd_value : Py.val;
  fd_type : Z
}.

#[global] Instance FieldDict_eq_dec : EqDecision FieldDict.
Proof. solve_decision. Defined.

(** *** Rendering *)

Definition page_count : method Z :=
  λ self, (Py.Ok (fitz.len (doc self)), self).

Definition render_page (page_number : Z) (zoom : float) : method fitz.Pixmap :=
  λ self,
    (page ←ᵣ fitz.load_page (doc self) page_number;
     Py.Ok (fitz.Page_get_pixmap (doc self) page
              {| fitz.mx_a := zoom; fitz.mx_d := zoom |}),
     self).

(** *** Form-field helpers *)

(** The body of the [for pno in range(len(self.doc))] loop of
    [_iter_widgets], over the page numbers still to visit. *)
Fixpoint iter_pages (d : fitz.Document) (pnos : list Z)
  : Py.generator fitz.Widget :=
  match pnos with
  | [] => Py.StopIteration
  | pno :: pnos' =>
      match fitz.load_page d pno with
      | Py.Raise e => Py.Throw e
      | Py.Ok page =>
          match Py.try_except_AttributeError
                  (fitz.Page_widgets d page) (Some []) with
          | Py.Raise e => Py.Throw e
          | Py.Ok widgets =>
              Py.yield_each (Py.or_empty widgets) (iter_pages d pnos')
          end
      end
  end.

Definition _iter_widgets (self : PDFEngine) : Py.generator fitz.Widget :=
  iter_pages (doc self) (Py.range (length (doc self))).

(** The loop of [list_form_fields]: [fields] is the list built so far. *)
Fixpoint list_form_fields_loop (g : Py.generator fitz.Widget)
    (fields : list FieldDict) : Py.result (list FieldDict) :=
  match g with
  | Py.StopIteration => Py.Ok fields
  | Py.Throw e => Py.Raise e
  | Py.Yield w rest =>
      if Py.truthy (fitz.field_name w) then
        list_form_fields_loop rest
          (fields ++ [{| fd_name := fitz.field_name w;
                         fd_value := fitz.field_value w;
                         fd_type := fitz.field_type w |}])
      else list_form_fields_loop rest fields
  end.

Definition list_form_fields : method (list FieldDict) :=
  λ self, (list_form_fields_loop (_iter_widgets self) [], self).

(** The loop of [update_form_field].  The first widget whose name compares
    equal gets the value and is updated, and the method returns; when the
    generator is exhausted the method falls off its end.  Either way the
    caller receives [None]. *)
Fixpoint update_form_field_loop (g : Py.generator fitz.Widget)
    (name value : string) : method Py.val :=
  λ self,
    match g with
    | Py.StopIteration => (Py.Ok Py.None_, self)
    | Py.Throw e => (Py.Raise e, self)
    | Py.Yield w rest =>
        if Py.eq (fitz.field_name w) (Py.Str name) then
          let w := fitz.set_field_value w (Py.Str value) in
          (Py.Ok Py.None_, with_doc self (fitz.Widget_update w (doc self)))
        else update_form_field_loop rest name value self
    end.

Definition update_form_field (name value : string) : method Py.val :=
  λ self, update_form_field_loop (_iter_widgets self) name value self.

(** *** Saving *)

Definition save (path : string) (incremental : bool) (self : PDFEngine)
    (w : os.world) : Py.result unit * os.world :=
  fitz_io.Document_save (doc self) path incremental w.

(** *** Add text *)

Definition insert_text (page_number : Z) (x y : float) (text : string)
    (font_size : float) : method Py.val :=
  λ self,
    match fitz.load_page (doc self) page_number with
    | Py.Raise e => (Py.Raise e, self)
    | Py.Ok page =>
        (Py.Ok Py.None_,
         with_doc self
           (fitz.Page_insert_text page (x, y) text font_size (doc self)))
    end.

(** The default arguments of the signatures. *)
Definition default_zoom : float := 2.0%float.
Definition default_font_size : float := 12%float.

(* ===================================================================== *)
(** ** Document order *)
(* ===================================================================== *)

(** The widget annotations of a page, in annotation order, as the engine can
    reach them. *)
Definition annots (p : fitz.PageData) : list fitz.Annot :=
  match fitz.pg_widgets p with
  | fitz.WidgetsSeq ws => ws
  | _ => []
  end.

(** The annotation at place [i] of page [p]. *)
Definition annot_at (d : fitz.Document) (p i : nat) : option fitz.Annot :=
  d !! p ≫= λ pg, annots pg !! i.

Definition page_ws (pno : nat) (p : fitz.PageData) : list fitz.Widget :=
  imap (fitz.widget_of pno) (annots p).

(** Every widget of the document in document order: pages ascending, and
    annotation order within a page. *)
Definition all_widgets (d : fitz.Document) : list fitz.Widget :=
  concat (imap page_ws d).

(** The test of [update_form_field], and the first widget that passes it. *)
Definition matches (name : string) (w : fitz.Widget) : bool :=
  Py.eq (fitz.field_name w) (Py.Str name).

Definition first_match (d : fitz.Document) (name : string)
  : option fitz.Widget :=
  List.find (matches name) (all_widgets d).

(** The test of [list_form_fields] and the dict it builds. *)
Definition named (w : fitz.Widget) : bool := Py.truthy (fitz.field_name w).

Definition to_dict (w : fitz.Widget) : FieldDict :=
  {| fd_name := fitz.field_name w;
     fd_value := fitz.field_value w;
     fd_type := fitz.field_type w |}.


(** Change the annotation at place [i] of page [p], nothing else. *)
Definition set_annot (p i : nat) (f : fitz.Annot → fitz.Annot)
    (d : fitz.Document) : fitz.Document :=
  alter (λ pg,
           match fitz.pg_widgets pg with
           | fitz.WidgetsSeq ws =>
               {| fitz.pg_widgets := fitz.WidgetsSeq (alter f i ws);
                  fitz.pg_text := fitz.pg_text pg |}
           | _ => pg
           end) p d.

(** The value entry and the appearance generated from it. *)
Definition with_value (v : Py.val) (a : fitz.Annot) : fitz.Annot :=
  {| fitz.a_name := fitz.a_name a; fitz.a_value := v;
     fitz.a_type := fitz.a_type a; fitz.a_display := fitz.a_display a;
     fitz.a_states := fitz.a_states a; fitz.a_ap := v |}.

(** The place of a widget object: page number and position on the page. *)
Definition place (w : fitz.Widget) : nat * nat :=
  (fitz.w_page w, fitz.w_index w).

(** The widget objects of the document after one place was given a value: the
    object at that place carries the value, the others are as before. *)
Definition at_place (p i : nat) (w : fitz.Widget) : Prop :=
  fitz.w_page w = p ∧ fitz.w_index w = i.

#[global] Instance at_place_dec p i w : Decision (at_place p i w).
Proof. unfold at_place. apply _. Defined.

Definition revalue (p i : nat) (v : Py.val) (w : fitz.Widget)
  : fitz.Widget :=
  if decide (at_place p i w) then fitz.set_field_value w v else w.


(* ===================================================================== *)
(** ** The lookup as the specification words it *)
(* ===================================================================== *)


(** "Value is one of a finite set of export-value strings": the value of the
    annotation is one of its export values. *)
Definition export_value (a : fitz.Annot) : bool :=
  match fitz.a_value a with
  | Py.Str s => bool_decide (s ∈ fitz.a_states a)
  | _ => false
  end.

(* ===================================================================== *)
(** ** Sample documents *)
(* ===================================================================== *)

Definition text_field (name value : string) : fitz.Annot :=
  {| fitz.a_name := Py.Str name; fitz.a_value := Py.Str value;
     fitz.a_type := fitz.PDF_WIDGET_TYPE_TEXT; fitz.a_display := 0;
     fitz.a_states := []; fitz.a_ap := Py.Str value |}.


Definition check_box (name value : string) : fitz.Annot :=
  {| fitz.a_name := Py.Str name; fitz.a_value := Py.Str value;
     fitz.a_type := fitz.PDF_WIDGET_TYPE_CHECKBOX; fitz.a_display := 0;
     fitz.a_states := ["Yes"; "Off"]; fitz.a_ap := Py.Str value |}.

Definition page_of (ws : list fitz.Annot) : fitz.PageData :=
  {| fitz.pg_widgets := fitz.WidgetsSeq ws; fitz.pg_text := [] |}.

Definition engine_of (d : fitz.Document) : PDFEngine :=
  {| doc := d; current_page := 0 |}.

(** Two pages; the name "first" occurs on both. *)
Definition doc_form : fitz.Document :=
  [ page_of [text_field "first" "Ada"; text_field "last" "Lovelace"];
    page_of [check_box "agree" "Yes"; text_field "first" "Grace"] ].


(** A widget without a name, next to a named one. *)
Definition doc_unnamed : fitz.Document :=
  [ page_of [text_field "" "scratch"; text_field "note" "hello"] ].

(** Three pages without any form field: no widgets, [widgets()] returning
    [None], and a build without the method. *)
Definition doc_plain : fitz.Document :=
  [ page_of [];
    {| fitz.pg_widgets := fitz.WidgetsNone; fitz.pg_text := [] |};
    {| fitz.pg_widgets := fitz.NoWidgetsAttr; fitz.pg_text := [] |} ].

(** A file system with nothing in it, on a device that works, and on one that
    fails the write. *)
Definition world_ok : os.world :=
  {| os.files := ∅; os.disk := os.Accepts; os.calls := [] |}.

Definition world_full : os.world :=
  {| os.files := ∅; os.disk := os.Fails (Py.OSError "No space left on device");
     os.calls := [] |}.

(* ===================================================================== *)
(** ** The Qt objects the front end keeps *)
(* ===================================================================== *)

Module Qt.

(** A [QSpinBox]: its range and its value.  [setValue] keeps the value
    within the range. *)
Record SpinBox : Type := {
  minimum : Z;
  maximum : Z;
  value : Z
}.

Definition setValue (v : Z) (s : SpinBox) : SpinBox :=
  {| minimum := minimum s; maximum := maximum s;
     value := Z.max (minimum s) (Z.min (maximum s) v) |}.

(** What [QDialog.exec] returns. *)
Inductive DialogCode : Type :=
| Rejected
| Accepted.

End Qt.

(* ===================================================================== *)
(** ** [class FieldsDialog] *)
(* ===================================================================== *)

(** [str(v)]. *)
Definition py_str (v : Py.val) : string :=
  match v with
  | Py.None_ => "None"
  | Py.Bool true => "True"
  | Py.Bool false => "False"
  | Py.Int z => pretty z
  | Py.Str s => s
  end.

(** [a or b]. *)
Definition py_or (a b : Py.val) : Py.val :=
  if Py.truthy a then a else b.

(** A dict with string keys, in insertion order.  [d[k] = v] replaces the
    value of a key that is present, in place, and appends a new key. *)
Fixpoint dict_set (k v : string) (d : list (string * string))
  : list (string * string) :=
  match d with
  | [] => [(k, v)]
  | (k', v') :: d' =>
      if String.eqb k' k then (k', v) :: d' else (k', v') :: dict_set k v d'
  end.

Definition dict_get (k : string) (d : list (string * string))
  : option string :=
  snd <$> List.find (λ kv, String.eqb kv.1 k) d.

(** The dialog: the texts of the two table columns, row by row, and
    [self._updates]. *)
Record FieldsDialog : Type := {
  table : list (string * string);
  _updates : list (string * string)
}.

(** The text of the name item.  Field names are strings; the item built from
    any other value has no text. *)
Definition name_text (v : Py.val) : string :=
  match v with
  | Py.Str s => s
  | _ => ""
  end.

(** One table row: [f["name"]] and [str(f["value"] or "")]. *)
Definition row_of (f : FieldDict) : string * string :=
  (name_text (fd_name f), py_str (py_or (fd_value f) (Py.Str ""))).

(** [FieldsDialog(fields, parent)]. *)
Definition FieldsDialog_init (fields : list FieldDict) : FieldsDialog :=
  {| table := row_of <$> fields; _updates := [] |}.

(** [accept]: one assignment [self._updates[name] = val] per table row, top
    to bottom. *)
Definition accept (dlg : FieldsDialog) : FieldsDialog :=
  {| table := table dlg;
     _updates :=
       fold_left (λ updates row, dict_set row.1 row.2 updates)
         (table dlg) (_updates dlg) |}.

Definition get_updates (dlg : FieldsDialog) : list (string * string) :=
  _updates dlg.

(** What the user does while the dialog is open: the value cells can be
    edited (the name cells cannot), and the dialog is closed with OK or with
    Cancel. *)
Record user : Type := {
  edits : nat → string → string;
  answer : Qt.DialogCode
}.

(** [dlg.exec()]: the edits reach the table; OK runs [accept]. *)
Definition exec (u : user) (dlg : FieldsDialog)
  : Qt.DialogCode * FieldsDialog :=
  let edited :=
    {| table := imap (λ row cells, (cells.1, edits u row cells.2))
                  (table dlg);
       _updates := _updates dlg |} in
  match answer u with
  | Qt.Accepted => (Qt.Accepted, accept edited)
  | Qt.Rejected => (Qt.Rejected, edited)
  end.

(* ===================================================================== *)
(** ** [class PDFEditor] *)
(* ===================================================================== *)

(** The window: [self.engine], [self.add_text_mode], the pixmap the page
    label shows and the page spin box.  The label is recorded by the engine
    pixmap it was filled from. *)
Record PDFEditor : Type := {
  engine : option PDFEngine;
  add_text_mode : bool;
  page_label : option fitz.Pixmap;
  page_spin : Qt.SpinBox
}.

Definition with_engine (ed : PDFEditor) (e : PDFEngine) : PDFEditor :=
  {| engine := Some e; add_text_mode := add_text_mode ed;
     page_label := page_label ed; page_spin := page_spin ed |}.

(** A method of the window.  An exception of the engine that the method
    does not catch leaves through it. *)
Definition gui_method : Type := PDFEditor → Py.result () * PDFEditor.

(** The zoom [show_page] renders at. *)
Definition show_zoom : float := 1.5%float.

Definition show_page (index : Z) : gui_method :=
  λ ed,
    match engine ed with
    | None => (Py.Ok (), ed)
    | Some e =>
        let e := {| doc := doc e; current_page := index |} in
        match render_page index show_zoom e with
        | (Py.Raise ex, e) => (Py.Raise ex, with_engine ed e)
        | (Py.Ok pix, e) =>
            (Py.Ok (),
             {| engine := Some e; add_text_mode := add_text_mode ed;
                page_label := Some pix;
                page_spin := Qt.setValue (index + 1) (page_spin ed) |})
        end
    end.

Definition resizeEvent : gui_method :=
  λ ed,
    match engine ed with
    | Some e => show_page (current_page e) ed
    | None => (Py.Ok (), ed)
    end.

Definition prev_page : gui_method :=
  λ ed,
    match engine ed with
    | Some e =>
        if 0 <? current_page e then show_page (current_page e - 1) ed
        else (Py.Ok (), ed)
    | None => (Py.Ok (), ed)
    end.

Definition next_page : gui_method :=
  λ ed,
    match engine ed with
    | Some e =>
        match page_count e with
        | (Py.Raise ex, e') => (Py.Raise ex, with_engine ed e')
        | (Py.Ok count, e') =>
            if current_page e <? count - 1 then
              show_page (current_page e' + 1) (with_engine ed e')
            else (Py.Ok (), with_engine ed e')
        end
    | None => (Py.Ok (), ed)
    end.

Definition goto_page (val : Z) : gui_method :=
  λ ed,
    match engine ed with
    | Some _ => show_page (val - 1) ed
    | None => (Py.Ok (), ed)
    end.

Definition toggle_add_text (checked : bool) : gui_method :=
  λ ed,
    (Py.Ok (),
     {| engine := engine ed; add_text_mode := checked;
        page_label := page_label ed; page_spin := page_spin ed |}).

(** The loop of [open_fields_dialog] over [dlg.get_updates().items()]. *)
Fixpoint update_each (items : list (string * string)) : method () :=
  λ self,
    match items with
    | [] => (Py.Ok (), self)
    | (name, value) :: items' =>
        match update_form_field name value self with
        | (Py.Raise ex, self') => (Py.Raise ex, self')
        | (Py.Ok _, self') => update_each items' self'
        end
    end.

Definition open_fields_dialog (u : user) : gui_method :=
  λ ed,
    match engine ed with
    | None => (Py.Ok (), ed)
    | Some e =>
        match list_form_fields e with
        | (Py.Raise ex, e) => (Py.Raise ex, with_engine ed e)
        | (Py.Ok [], e) => (Py.Ok (), with_engine ed e)
        | (Py.Ok fields, e) =>
            match exec u (FieldsDialog_init fields) with
            | (Qt.Accepted, dlg) =>
                match update_each (get_updates dlg) e with
                | (Py.Raise ex, e) => (Py.Raise ex, with_engine ed e)
                | (Py.Ok _, e) => show_page (current_page e) (with_engine ed e)
                end
            | (Qt.Rejected, _) => (Py.Ok (), with_engine ed e)
            end
        end
    end.

(** What [save_file] tells the user in its message box. *)
Inductive message : Type :=
| Saved
| SaveError (e : Py.exn).

(** [save_file], with the path the file dialog returned: nothing happens
    without an engine or with an empty path; otherwise the engine saves, and
    an exception is caught and reported. *)
Definition save_file (out : string) (ed : PDFEditor) (w : os.world)
  : Py.result (option message) * os.world :=
  match engine ed with
  | None => (Py.Ok None, w)
  | Some e =>
      if String.eqb out "" then (Py.Ok None, w)
      else
        match save out false e w with
        | (Py.Ok _, w') => (Py.Ok (Some Saved), w')
        | (Py.Raise ex, w') => (Py.Ok (Some (SaveError ex)), w')
        end
  end.

(** The current page is a page of the document. *)
Definition in_range (ed : PDFEditor) : Prop :=
  ∃ e, engine ed = Some e ∧ 0 ≤ current_page e < fitz.len (doc e).

(** The pixmap of page [index] at the zoom of [show_page]. *)
Definition page_pixmap (d : fitz.Document) (index : Z) : fitz.Pixmap :=
  {| fitz.pix_source := d !! Z.to_nat index;
     fitz.pix_matrix := {| fitz.mx_a := show_zoom; fitz.mx_d := show_zoom |} |}.

(** *** Add-text mode *)

(** What a click on the label comes with: where it hit the label, the pixmap
    the label holds ([None] when [page_label.pixmap()] is falsy, else its
    width and height), what [QInputDialog.getText] returned, the size of the
    label, and the width and height of [page.rect]. *)
Record click : Type := {
  pos_label : Z * Z;
  label_pixmap : option (Z * Z);
  typed : string * bool;
  label_size : Z * Z;
  page_rect : float * float
}.

(** An event as [eventFilter] looks at it: whether its target is the page
    label, whether it is a mouse press, whether the button is the left one,
    and the click it carries. *)
Record event : Type := {
  on_page_label : bool;
  is_press : bool;
  is_left : bool;
  ev_click : click
}.

(** How [_handle_add_text_click] can fail: with an exception of the engine,
    or dividing by a pixmap side of zero. *)
Inductive click_failure : Type :=
| EngineRaised (e : Py.exn)
| ZeroDivisionError.

Section AddText.

(** The conversion of an [int] to a [float] that Python applies to the
    integer operand of [*] and [/]. *)
Variable to_float : Z → float.

Definition _handle_add_text_click (c : click)
  : PDFEditor → option click_failure * PDFEditor :=
  λ ed,
    match label_pixmap c with
    | None => (None, ed)
    | Some (pm_w, pm_h) =>
        let '(text, ok) := typed c in
        if negb (ok && negb (String.eqb text "")) then (None, ed)
        else
          let '(lab_w, lab_h) := label_size c in
          let offset_x := (lab_w - pm_w) `div` 2 in
          let offset_y := (lab_h - pm_h) `div` 2 in
          let x_in_pixmap := (pos_label c).1 - offset_x in
          let y_in_pixmap := (pos_label c).2 - offset_y in
          if negb ((0 <=? x_in_pixmap) && (x_in_pixmap <=? pm_w)
                   && (0 <=? y_in_pixmap) && (y_in_pixmap <=? pm_h))
          then (None, ed)
          else
            match engine ed with
            | None => (Some (EngineRaised Py.AttributeError), ed)
            | Some e =>
                match fitz.load_page (doc e) (current_page e) with
                | Py.Raise ex => (Some (EngineRaised ex), ed)
                | Py.Ok _ =>
                    let '(pdf_w, pdf_h) := page_rect c in
                    if pm_w =? 0 then (Some ZeroDivisionError, ed)
                    else
                      let x_pdf :=
                        PrimFloat.mul (to_float x_in_pixmap)
                          (PrimFloat.div pdf_w (to_float pm_w)) in
                      if pm_h =? 0 then (Some ZeroDivisionError, ed)
                      else
                        let y_pdf :=
                          PrimFloat.mul (to_float y_in_pixmap)
                            (PrimFloat.div pdf_h (to_float pm_h)) in
                        match insert_text (current_page e) x_pdf y_pdf text
                                default_font_size e with
                        | (Py.Raise ex, e) =>
                            (Some (EngineRaised ex), with_engine ed e)
                        | (Py.Ok _, e) =>
                            match show_page (current_page e)
                                    (with_engine ed e) with
                            | (Py.Raise ex, ed) =>
                                (Some (EngineRaised ex), ed)
                            | (Py.Ok _, ed) => (None, ed)
                            end
                        end
                end
            end
    end.

(** [eventFilter]: a left press on the page label in add-text mode with an
    engine goes to the handler and is consumed ([True]), unless the handler
    fails; anything else is left to the base class, whose answer is
    [inherited]. *)
Definition eventFilter (ev : event) (inherited : bool)
  : PDFEditor → (click_failure + bool) * PDFEditor :=
  λ ed,
    if on_page_label ev && add_text_mode ed
       && (if engine ed is Some _ then true else false)
       && is_press ev && is_left ev
    then
      match _handle_add_text_click (ev_click ev) ed with
      | (Some failure, ed) => (inl failure, ed)
      | (None, ed) => (inr true, ed)
      end
    else (inr inherited, ed).

End AddText.

(** The conversion for integers that a 63-bit word holds, pixel counts among
    them. *)
Definition float_of_pixels (z : Z) : float :=
  PrimFloat.of_uint63 (Uint63.of_Z z).

(** A left press at (150, 200) on a 400 by 600 label that shows a 300 by 400
    pixmap of a 612 by 792 page, answered with "Hello". *)
Definition sample_click : click :=
  {| pos_label := (150, 200); label_pixmap := Some (300, 400);
     typed := ("Hello", true); label_size := (400, 600);
     page_rect := (612%float, 792%float) |}.

Definition sample_press : event :=
  {| on_page_label := true; is_press := true; is_left := true;
     ev_click := sample_click |}.

(** The row a user finds last under a name, reading the table top to
    bottom. *)
Definition last_row (name : string) (rows : list (string * string))
  : option string :=
  dict_get name (rev rows).


(** A window on a document, showing nothing yet, and users of the dialog. *)
Definition editor_of (d : fitz.Document) (page : Z) : PDFEditor :=
  {| engine := Some {| doc := d; current_page := page |};
     add_text_mode := false; page_label := None;
     page_spin := {| Qt.minimum := 1; Qt.maximum := fitz.len d;
                     Qt.value := 1 |} |}.

Definition user_ok : user :=
  {| edits := λ _ text, text; answer := Qt.Accepted |}.

Definition user_cancel : user :=
  {| edits := λ _ _, "typed and dropped"; answer := Qt.Rejected |}.

(* ===================================================================== *)
(** ** The engine over any behaviour of the library *)
(* ===================================================================== *)

(** [Widget.update] and [Document.save] belong to PyMuPDF.  What the engine
    itself does around them does not depend on what they do, so here they
    are parameters: [Widget_update] takes the widget object and the document
    to the outcome of [w.update()] and the document after it, and
    [Document_save] takes the document, the path, the flag and the files to
    the outcome of [doc.save(...)] and the files after it. *)
Module Any.

Fixpoint update_form_field_loop
    (Widget_update : fitz.Widget → fitz.Document
                     → Py.result () * fitz.Document)
    (g : Py.generator fitz.Widget) (name value : string) : method Py.val :=
  λ self,
    match g with
    | Py.StopIteration => (Py.Ok Py.None_, self)
    | Py.Throw e => (Py.Raise e, self)
    | Py.Yield w rest =>
        if Py.eq (fitz.field_name w) (Py.Str name) then
          let w := fitz.set_field_value w (Py.Str value) in
          match Widget_update w (doc self) with
          | (Py.Ok _, d) => (Py.Ok Py.None_, with_doc self d)
          | (Py.Raise e, d) => (Py.Raise e, with_doc self d)
          end
        else update_form_field_loop Widget_update rest name value self
    end.

Definition update_form_field
    (Widget_update : fitz.Widget → fitz.Document
                     → Py.result () * fitz.Document)
    (name value : string) : method Py.val :=
  λ self,
    update_form_field_loop Widget_update (_iter_widgets self) name value self.

Definition save
    (Document_save : fitz.Document → string → bool → gmap string os.file
                     → Py.result () * gmap string os.file)
    (path : string) (incremental : bool) (self : PDFEngine) (w : os.world)
  : Py.result () * os.world :=
  let r := Document_save (doc self) path incremental (os.files w) in
  (r.1,
   {| os.files := r.2; os.disk := os.disk w;
      os.calls := os.calls w ++ [os.DocSave path incremental] |}).

(** [save_file] of the window over such a [save]. *)
Definition save_file
    (Document_save : fitz.Document → string → bool → gmap string os.file
                     → Py.result () * gmap string os.file)
    (out : string) (ed : PDFEditor) (w : os.world)
  : Py.result (option message) * os.world :=
  match engine ed with
  | None => (Py.Ok None, w)
  | Some e =>
      if String.eqb out "" then (Py.Ok None, w)
      else
        match save Document_save out false e w with
        | (Py.Ok _, w') => (Py.Ok (Some Saved), w')
        | (Py.Raise ex, w') => (Py.Ok (Some (SaveError ex)), w')
        end
  end.

End Any.

(* ===================================================================== *)
(** ** [Widget.update] by field type and field tree *)
(* ===================================================================== *)

(** What PyMuPDF's [Widget.update] does with the value it is given:

    - a widget without a field name is refused with
      [ValueError("field name missing")], before anything is written;
    - a check box is switched to its on-state when the value is [True], the
      name of the on-state or ["Yes"], and to ["Off"] otherwise;
    - a radio button is switched to its on-state by a truthy value and to
      ["Off"] otherwise;
    - any other field takes a non-empty text as its value, and an empty text
      is not written;
    - the value belongs to the field: the widgets that are kids of one field
      all show it. *)
Module pymupdf.

(** The field tree of the form: the field each place belongs to, named by
    one of its places.  No call of the engine changes it. *)
Definition tree : Type := nat * nat → nat * nat.

(** The on-state of a button: the first of its states that is not ["Off"],
    and ["Yes"] when there is none. *)
Definition on_state (a : fitz.Annot) : string :=
  match List.find (λ s, negb (String.eqb s "Off")) (fitz.a_states a) with
  | Some s => s
  | None => "Yes"
  end.

(** The text of a value. *)
Definition text_of (v : Py.val) : string :=
  match v with
  | Py.Str s => s
  | _ => ""
  end.

(** The value [update] stores for the widget object [w] on the annotation
    [a], or [None] when it stores nothing. *)
Definition stored (a : fitz.Annot) (w : fitz.Widget) : option Py.val :=
  let value := fitz.field_value w in
  if fitz.field_type w =? fitz.PDF_WIDGET_TYPE_CHECKBOX then
    Some (Py.Str
            (if Py.eq value (Py.Bool true)
                || Py.eq value (Py.Str (on_state a))
                || String.eqb (text_of value) "Yes"
             then on_state a else "Off"))
  else if fitz.field_type w =? fitz.PDF_WIDGET_TYPE_RADIOBUTTON then
    Some (Py.Str (if Py.truthy value then on_state a else "Off"))
  else if String.eqb (text_of value) "" then None
  else Some (Py.Str (text_of value)).

(** Write a value, and the appearance generated from it, to every widget of
    one field. *)
Definition write_field (t : tree) (field : nat * nat) (v : Py.val)
    (d : fitz.Document) : fitz.Document :=
  imap (λ p pg,
          match fitz.pg_widgets pg with
          | fitz.WidgetsSeq ws =>
              {| fitz.pg_widgets :=
                   fitz.WidgetsSeq
                     (imap (λ i a, if decide (t (p, i) = field)
                                   then with_value v a else a) ws);
                 fitz.pg_text := fitz.pg_text pg |}
          | _ => pg
          end) d.

Definition Widget_update (t : tree) (w : fitz.Widget) (d : fitz.Document)
  : Py.result () * fitz.Document :=
  if negb (Py.truthy (fitz.field_name w)) then
    (Py.Raise (Py.ValueError "field name missing"), d)
  else
    match annot_at d (fitz.w_page w) (fitz.w_index w) with
    | None => (Py.Ok (), d)
    | Some a =>
        match stored a w with
        | None => (Py.Ok (), d)
        | Some v => (Py.Ok (), write_field t (t (place w)) v d)
        end
    end.

End pymupdf.

(** The field tree of a form in which every widget is a field of its own. *)
Definition own_fields : pymupdf.tree := λ q, q.



(** The widget objects after a field was written. *)
Definition refield (t : pymupdf.tree) (field : nat * nat) (v : Py.val)
    (u : fitz.Widget) : fitz.Widget :=
  if decide (t (place u) = field) then fitz.set_field_value u v else u.

(** Two documents with the same pages, the same text on every page, and the
    same names and types of widgets. *)
Definition same_form (d' d : fitz.Document) : Prop :=
  fitz.len d' = fitz.len d
  ∧ fitz.pg_text <$> d' = fitz.pg_text <$> d
  ∧ fitz.field_name <$> all_widgets d' = fitz.field_name <$> all_widgets d
  ∧ fitz.field_type <$> all_widgets d' = fitz.field_type <$> all_widgets d.

(** A check box whose on-state is called "On". *)
Definition check_box_on (name value : string) : fitz.Annot :=
  {| fitz.a_name := Py.Str name; fitz.a_value := Py.Str value;
     fitz.a_type := fitz.PDF_WIDGET_TYPE_CHECKBOX; fitz.a_display := 0;
     fitz.a_states := ["On"; "Off"]; fitz.a_ap := Py.Str value |}.

(* ===================================================================== *)
(** ** The methods on the sample documents *)
(* ===================================================================== *)

Section Samples.

Example page_count_doc_form :
  page_count (engine_of doc_form) = (Py.Ok 2, engine_of doc_form).
Proof. reflexivity. Qed.

Example iter_widgets_doc_plain :
  _iter_widgets (engine_of doc_plain) = Py.StopIteration.
Proof. reflexivity. Qed.

Example list_form_fields_doc_form :
  (list_form_fields (engine_of doc_form)).1
  = Py.Ok
      [ {| fd_name := Py.Str "first"; fd_value := Py.Str "Ada"; fd_type := 7 |};
        {| fd_name := Py.Str "last"; fd_value := Py.Str "Lovelace";
           fd_type := 7 |};
        {| fd_name := Py.Str "agree"; fd_value := Py.Str "Yes";
           fd_type := 2 |};
        {| fd_name := Py.Str "first"; fd_value := Py.Str "Grace";
           fd_type := 7 |} ].
Proof. reflexivity. Qed.

Example update_form_field_doc_form :
  (update_form_field "first" "Alan" (engine_of doc_form)).2
  = engine_of
      [ page_of [with_value (Py.Str "Alan") (text_field "first" "Ada");
                 text_field "last" "Lovelace"];
        page_of [check_box "agree" "Yes"; text_field "first" "Grace"] ].
Proof. reflexivity. Qed.

Example insert_text_doc_form :
  (fitz.pg_text
     <$> doc (insert_text 1 72%float 720%float "Hello" default_font_size
                (engine_of doc_form)).2 !! 1%nat)
  = Some [ {| fitz.tr_point := (72%float, 720%float);
              fitz.tr_text := "Hello";
              fitz.tr_fontsize := default_font_size |} ].
Proof. reflexivity. Qed.

Example insert_text_out_of_range :
  insert_text 2 72%float 720%float "Hello" default_font_size
    (engine_of doc_form)
  = (Py.Raise (Py.ValueError "page not in document"), engine_of doc_form).
Proof. reflexivity. Qed.

Example save_doc_form :
  let r := save "out.pdf" false (engine_of doc_form) world_ok in
  r.1 = Py.Ok () ∧ os.files r.2 !! "out.pdf" = Some (os.Whole doc_form).
Proof. split; reflexivity. Qed.

End Samples.

(* ===================================================================== *)
(** ** Python layer: basic facts *)
(* ===================================================================== *)

Section PyFacts.

Lemma eq_Str_iff (v : Py.val) (s : string) :
  Py.eq v (Py.Str s) = true ↔ v = Py.Str s.
Proof.
  destruct v as [|b|z|t]; simpl; try (split; [discriminate|congruence]).
  rewrite String.eqb_eq. split; congruence.
Qed.

Lemma truthy_Str (s : string) : s ≠ "" → Py.truthy (Py.Str s) = true.
Proof.
  intros Hs. simpl. apply negb_true_iff, String.eqb_neq. exact Hs.
Qed.

Lemma or_empty_Some {A} (l : list A) : Py.or_empty (Some l) = l.
Proof. by destruct l. Qed.

Lemma yield_each_app {A} (l1 l2 : list A) (g : Py.generator A) :
  Py.yield_each l1 (Py.yield_each l2 g) = Py.yield_each (l1 ++ l2) g.
Proof. induction l1 as [|a l1 IH]; simpl; [done | by rewrite IH]. Qed.

End PyFacts.

(* ===================================================================== *)
(** ** What [_iter_widgets] yields *)
(* ===================================================================== *)

Section IterWidgets.

Lemma load_page_in_range (d : fitz.Document) (k : nat) :
  (k < length d)%nat →
  fitz.load_page d (Z.of_nat k) = Py.Ok {| fitz.number := k |}.
Proof.
  intros Hk. unfold fitz.load_page, fitz.len.
  replace (Z.of_nat (length d) <=? Z.of_nat k) with false
    by (symmetry; apply Z.leb_gt; lia).
  replace (Z.of_nat (length d) =? 0) with false
    by (symmetry; apply Z.eqb_neq; lia).
  simpl. rewrite Z.mod_small by lia. by rewrite Nat2Z.id.
Qed.

(** One page of the loop: whatever [page.widgets()] does, the widgets the
    loop yields for the page are those of [page_ws]. *)
Lemma page_widgets_or_empty (d : fitz.Document) (k : nat)
    (pg : fitz.PageData) :
  d !! k = Some pg →
  Py.try_except_AttributeError
    (fitz.Page_widgets d {| fitz.number := k |}) (Some [])
  = Py.Ok (match fitz.pg_widgets pg with
           | fitz.WidgetsSeq ws => Some (imap (fitz.widget_of k) ws)
           | fitz.WidgetsNone => None
           | fitz.NoWidgetsAttr => Some []
           end).
Proof.
  intros Hpg. unfold fitz.Page_widgets. simpl. rewrite Hpg. simpl.
  by destruct (fitz.pg_widgets pg).
Qed.

Lemma iter_pages_from (d : fitz.Document) (n k : nat) :
  (k + n)%nat = length d →
  iter_pages d (Z.of_nat <$> seq k n)
  = Py.yield_each (concat (imap (λ i, page_ws (k + i)) (drop k d)))
      Py.StopIteration.
Proof.
  revert k. induction n as [|n IH]; intros k Hlen.
  - rewrite drop_ge by lia. done.
  - destruct (lookup_lt_is_Some_2 d k) as [pg Hpg]; [lia|].
    rewrite (drop_S _ _ _ Hpg). simpl.
    rewrite load_page_in_range by lia.
    rewrite (page_widgets_or_empty _ _ _ Hpg).
    rewrite IH by lia. rewrite yield_each_app. f_equal. f_equal.
    + unfold page_ws, annots. rewrite Nat.add_0_r.
      destruct (fitz.pg_widgets pg); simpl; try done.
      apply or_empty_Some.
    + f_equal. apply imap_ext. intros i x _. simpl. f_equal. lia.
Qed.

(** The generator yields the widgets of the document, in document order,
    and then stops: it never raises. *)
Lemma iter_widgets_all (self : PDFEngine) :
  _iter_widgets self
  = Py.yield_each (all_widgets (doc self)) Py.StopIteration.
Proof.
  unfold _iter_widgets, Py.range.
  rewrite (iter_pages_from (doc self) (length (doc self)) 0) by lia.
  by rewrite drop_0.
Qed.

End IterWidgets.

(* ===================================================================== *)
(** ** Widgets and the annotations behind them *)
(* ===================================================================== *)

Section Places.

(** Altering one place of a list, seen through an indexed map. *)
Lemma imap_alter {A B} (f : nat → A → B) (h : A → A) (i : nat)
    (l : list A) :
  imap f (alter h i l)
  = imap (λ j x, if decide (j = i) then f j (h x) else f j x) l.
Proof.
  revert f i. induction l as [|x l IH]; intros f i; [done|].
  destruct i as [|i]; simpl.
  - by f_equal.
  - f_equal. change (list_alter h i l) with (alter h i l).
    rewrite IH. apply imap_ext. intros j y _. simpl.
    repeat case_decide; done || lia.
Qed.

(** Each widget object stands at the place of the annotation it copies. *)
Lemma all_widgets_place (d : fitz.Document) (w : fitz.Widget) :
  w ∈ all_widgets d ↔
  ∃ a, annot_at d (fitz.w_page w) (fitz.w_index w) = Some a
       ∧ w = fitz.widget_of (fitz.w_page w) (fitz.w_index w) a.
Proof.
  unfold all_widgets, annot_at. rewrite list_elem_of_In, in_concat. split.
  - intros (l & Hl & Hw).
    apply list_elem_of_In, elem_of_lookup_imap in Hl as (p & pg & -> & Hpg).
    apply list_elem_of_In, elem_of_lookup_imap in Hw as (i & a & -> & Ha).
    exists a. simpl. rewrite Hpg. simpl. by rewrite Ha.
  - intros (a & Ha & Hw).
    destruct (d !! fitz.w_page w) as [pg|] eqn:Hpg; [|done]. simpl in Ha.
    exists (page_ws (fitz.w_page w) pg). split.
    + apply list_elem_of_In. by apply (elem_of_lookup_imap_2 page_ws).
    + apply list_elem_of_In. rewrite Hw.
      by apply (elem_of_lookup_imap_2 (fitz.widget_of _)).
Qed.

Lemma first_match_place (d : fitz.Document) (name : string)
    (w : fitz.Widget) :
  first_match d name = Some w →
  ∃ a, annot_at d (fitz.w_page w) (fitz.w_index w) = Some a
       ∧ w = fitz.widget_of (fitz.w_page w) (fitz.w_index w) a
       ∧ fitz.a_name a = Py.Str name.
Proof.
  intros [Hin Hm]%find_some.
  apply list_elem_of_In, all_widgets_place in Hin as (a & Ha & Hw).
  exists a. repeat split; [done..|].
  apply eq_Str_iff in Hm. rewrite Hw in Hm. exact Hm.
Qed.


(** [w.update()] on a widget object obtained from the document, after its
    value was assigned: the annotation behind it gets the value and a new
    appearance; name, type and display mode are written back as read. *)
Lemma Widget_update_set_annot (d : fitz.Document) (w : fitz.Widget)
    (a : fitz.Annot) (v : Py.val) :
  annot_at d (fitz.w_page w) (fitz.w_index w) = Some a →
  w = fitz.widget_of (fitz.w_page w) (fitz.w_index w) a →
  fitz.Widget_update (fitz.set_field_value w v) d
  = set_annot (fitz.w_page w) (fitz.w_index w) (with_value v) d.
Proof.
  intros Ha Hw. unfold fitz.Widget_update, set_annot. simpl.
  apply list_alter_ext; [|done]. intros pg Hpg.
  unfold fitz.put_annot. simpl.
  destruct (fitz.pg_widgets pg) as [| |ws] eqn:Hws; [done..|].
  do 2 f_equal. apply list_alter_ext; [|done]. intros a' Ha'.
  unfold annot_at in Ha. rewrite Hpg in Ha. simpl in Ha.
  unfold annots in Ha. rewrite Hws in Ha.
  assert (a' = a) as -> by congruence.
  rewrite Hw. reflexivity.
Qed.

Lemma page_ws_with_value (K i : nat) (v : Py.val) (ws : list fitz.Annot) :
  imap (fitz.widget_of K) (alter (with_value v) i ws)
  = revalue K i v <$> imap (fitz.widget_of K) ws.
Proof.
  rewrite imap_alter, fmap_imap. apply imap_ext. intros j a _.
  unfold revalue, at_place. simpl.
  destruct (decide (j = i)) as [->|Hj].
  - by rewrite decide_True.
  - rewrite decide_False; [done | intros [_ ?]; congruence].
Qed.

Lemma all_widgets_set_annot (d : fitz.Document) (p i : nat) (v : Py.val) :
  all_widgets (set_annot p i (with_value v) d)
  = revalue p i v <$> all_widgets d.
Proof.
  unfold all_widgets, set_annot.
  rewrite imap_alter.
  change (revalue p i v <$> concat (imap page_ws d))
    with (map (revalue p i v) (concat (imap page_ws d))).
  rewrite concat_map. f_equal.
  change (map (map (revalue p i v)) (imap page_ws d))
    with (fmap (M:=list) (fmap (revalue p i v)) (imap page_ws d)).
  rewrite fmap_imap. apply imap_ext. intros j pg _. simpl.
  unfold page_ws, annots. case_decide as Hj.
  - subst j. destruct (fitz.pg_widgets pg) eqn:Hws; simpl;
      rewrite ?Hws; [done..|].
    apply page_ws_with_value.
  - rewrite fmap_imap. apply imap_ext. intros k a _. simpl.
    unfold revalue, at_place. simpl.
    rewrite decide_False; [done | intros [? _]; congruence].
Qed.

End Places.

(* ===================================================================== *)
(** ** The two loops over the generator *)
(* ===================================================================== *)

Section Loops.

Lemma list_form_fields_loop_all (l : list fitz.Widget)
    (fields : list FieldDict) :
  list_form_fields_loop (Py.yield_each l Py.StopIteration) fields
  = Py.Ok (fields ++ (to_dict <$> List.filter named l)).
Proof.
  revert fields. induction l as [|w l IH]; intros fields; simpl.
  - by rewrite app_nil_r.
  - unfold named at 1. destruct (Py.truthy (fitz.field_name w)); simpl.
    + rewrite IH. by rewrite <- app_assoc.
    + apply IH.
Qed.

Lemma update_form_field_loop_find (l : list fitz.Widget)
    (name value : string) (self : PDFEngine) :
  update_form_field_loop (Py.yield_each l Py.StopIteration) name value self
  = (Py.Ok Py.None_,
     match List.find (matches name) l with
     | Some w =>
         with_doc self
           (fitz.Widget_update (fitz.set_field_value w (Py.Str value))
              (doc self))
     | None => self
     end).
Proof.
  induction l as [|w l IH]; simpl; [done|].
  unfold matches at 1. by destruct (Py.eq (fitz.field_name w) _).
Qed.

(** The effect of [update_form_field] on the document, place by place. *)
Lemma update_form_field_effect (name value : string) (self : PDFEngine) :
  update_form_field name value self
  = (Py.Ok Py.None_,
     match first_match (doc self) name with
     | Some w =>
         with_doc self
           (set_annot (fitz.w_page w) (fitz.w_index w)
              (with_value (Py.Str value)) (doc self))
     | None => self
     end).
Proof.
  unfold update_form_field. rewrite iter_widgets_all.
  rewrite update_form_field_loop_find. unfold first_match.
  destruct (List.find _ _) as [w|] eqn:Hfind; [|done].
  destruct (first_match_place _ _ _ Hfind) as (a & Ha & Hw & _).
  by rewrite (Widget_update_set_annot _ _ a).
Qed.

(** The first entry of a listing that carries a given name, once the first
    widget of that name was given a value. *)
Lemma first_entry_after_revalue (l : list fitz.Widget) (p i : nat)
    (n v : string) (w : fitz.Widget) :
  n ≠ "" →
  List.find (matches n) l = Some w →
  at_place p i w →
  List.find (λ f, Py.eq (fd_name f) (Py.Str n))
    (to_dict <$> List.filter named (revalue p i (Py.Str v) <$> l))
  = Some {| fd_name := Py.Str n; fd_value := Py.Str v;
            fd_type := fitz.field_type w |}.
Proof.
  intros Hn Hfind Hw. induction l as [|u l IH]; [done|].
  simpl in Hfind. destruct (matches n u) eqn:Hu.
  - injection Hfind as ->. apply eq_Str_iff in Hu.
    cbn [fmap list_fmap]. unfold revalue at 1. rewrite decide_True by done.
    cbn [List.filter]. unfold named at 1. simpl. rewrite Hu.
    rewrite truthy_Str by done. simpl. rewrite Hu. simpl.
    rewrite String.eqb_refl. unfold to_dict. simpl. by rewrite Hu.
  - specialize (IH Hfind). cbn [fmap list_fmap].
    assert (fitz.field_name (revalue p i (Py.Str v) u) = fitz.field_name u)
      as Hname by (unfold revalue; by case_decide).
    cbn [List.filter]. unfold named at 1. rewrite Hname.
    destruct (Py.truthy (fitz.field_name u)); [|exact IH].
    cbn [fmap list_fmap List.find to_dict fd_name]. rewrite Hname.
    unfold matches in Hu. rewrite Hu. exact IH.
Qed.

End Loops.

(* ===================================================================== *)
(** ** [update_form_field] *)
(* ===================================================================== *)

Section UpdateFormField.


(** C3, as stated, fails: the call that finds and updates "last" and the
    call that finds no "phone" hand the same value back. *)
Lemma update_form_field_no_flag :
  let hit := update_form_field "last" "Byron" (engine_of doc_form) in
  let miss := update_form_field "phone" "555" (engine_of doc_form) in
  (fitz.field_value <$> first_match doc_form "last")
    = Some (Py.Str "Lovelace")
  ∧ first_match doc_form "phone" = None
  ∧ (fitz.a_value <$> annot_at (doc hit.2) 0 1) = Some (Py.Str "Byron")
  ∧ miss.2 = engine_of doc_form
  ∧ hit.1 = miss.1.
Proof. repeat split; reflexivity. Qed.

(** C6: when the name equals no widget's field name, [update_form_field]
    returns without an error and leaves the whole object unchanged. *)
Theorem update_form_field_miss_noop (self : PDFEngine)
    (name value : string) :
  Forall (λ w, fitz.field_name w ≠ Py.Str name) (all_widgets (doc self)) →
  update_form_field name value self = (Py.Ok Py.None_, self).
Proof.
  intros Hnone. rewrite update_form_field_effect.
  destruct (first_match (doc self) name) as [w|] eqn:Hfind; [|done].
  apply find_some in Hfind as [Hin Hm].
  rewrite Forall_forall in Hnone.
  apply list_elem_of_In, Hnone in Hin. by apply eq_Str_iff in Hm.
Qed.

Lemma update_form_field_miss_noop_witness :
  Forall (λ w, fitz.field_name w ≠ Py.Str "phone") (all_widgets doc_form)
  ∧ update_form_field "phone" "555" (engine_of doc_form)
    = (Py.Ok Py.None_, engine_of doc_form).
Proof.
  assert (Forall (λ w, fitz.field_name w ≠ Py.Str "phone")
            (all_widgets doc_form)) as H
    by (repeat constructor; discriminate).
  split; [exact H|].
  exact (update_form_field_miss_noop (engine_of doc_form) "phone" "555" H).
Defined.

End UpdateFormField.

(* ===================================================================== *)
(** ** [list_form_fields] *)
(* ===================================================================== *)

Section ListFormFields.

(** What [list_form_fields] returns: one dict per named widget, in document
    order; the call neither raises nor changes the object. *)
Lemma list_form_fields_all (self : PDFEngine) :
  list_form_fields self
  = (Py.Ok (to_dict <$> List.filter named (all_widgets (doc self))), self).
Proof.
  unfold list_form_fields.
  by rewrite iter_widgets_all, list_form_fields_loop_all.
Qed.

(** C7: [list_form_fields] walks every page's widget annotations and returns
    exactly those whose field name is non-empty, each as a
    [{name, value, type}] dict, in document order; it never raises.  On a
    document in which no widget carries a name it returns the empty list. *)
Theorem list_form_fields_named (self : PDFEngine) :
  list_form_fields self
  = (Py.Ok (to_dict <$> List.filter named (all_widgets (doc self))), self)
  ∧ (Forall (λ w, named w = false) (all_widgets (doc self)) →
     list_form_fields self = (Py.Ok [], self)).
Proof.
  split; [apply list_form_fields_all|].
  intros Hnone. rewrite list_form_fields_all. do 2 f_equal.
  induction Hnone as [|w l Hw _ IH]; [done|].
  simpl. by rewrite Hw.
Qed.

Lemma list_form_fields_named_witness :
  list_form_fields (engine_of doc_unnamed)
  = (Py.Ok [ {| fd_name := Py.Str "note"; fd_value := Py.Str "hello";
                fd_type := fitz.PDF_WIDGET_TYPE_TEXT |} ],
     engine_of doc_unnamed)
  ∧ Forall (λ w, named w = false) (all_widgets (doc (engine_of doc_plain)))
  ∧ list_form_fields (engine_of doc_plain) = (Py.Ok [], engine_of doc_plain).
Proof.
  assert (Forall (λ w, named w = false)
            (all_widgets (doc (engine_of doc_plain)))) as H
    by (repeat constructor).
  split; [exact (proj1 (list_form_fields_named (engine_of doc_unnamed)))|].
  split; [exact H|].
  exact (proj2 (list_form_fields_named (engine_of doc_plain)) H).
Defined.

End ListFormFields.

(* ===================================================================== *)
(** ** Rendering and page numbers *)
(* ===================================================================== *)

Section Rendering.

Lemma minus_one_mod (n : Z) : 0 < n → (-1) `mod` n = n - 1.
Proof.
  intros Hn. symmetry. apply (Z.mod_unique_pos (-1) n (-1) (n - 1)); lia.
Qed.

(** C4 (as amended): [render_page] called with the page count fails with the
    library's out-of-range error, [ValueError("page not in document")], on
    every document.  Called with -1 on a document that has a page it does not
    fail: the library counts negative numbers from the end, and the pixmap is
    that of the last page.  The object is unchanged in both cases. *)
Theorem render_page_bounds (self : PDFEngine) (zoom : float) :
  render_page (fitz.len (doc self)) zoom self
  = (Py.Raise (Py.ValueError "page not in document"), self)
  ∧ ∀ pg, last (doc self) = Some pg →
      render_page (-1) zoom self
      = (Py.Ok {| fitz.pix_source := Some pg;
                  fitz.pix_matrix :=
                    {| fitz.mx_a := zoom; fitz.mx_d := zoom |} |},
         self).
Proof.
  split.
  - unfold render_page, fitz.load_page. by rewrite Z.leb_refl.
  - intros pg Hlast. unfold render_page, fitz.load_page, fitz.len.
    assert (0 < length (doc self))%nat as Hlen
      by (destruct (doc self); [done | simpl; lia]).
    replace (Z.of_nat (length (doc self)) <=? -1) with false
      by (symmetry; apply Z.leb_gt; lia).
    replace (Z.of_nat (length (doc self)) =? 0) with false
      by (symmetry; apply Z.eqb_neq; lia).
    simpl. unfold fitz.Page_get_pixmap. simpl.
    rewrite minus_one_mod by lia.
    replace (Z.to_nat (Z.of_nat (length (doc self)) - 1))
      with (pred (length (doc self))) by lia.
    by rewrite <- last_lookup, Hlast.
Qed.

Lemma render_page_bounds_witness :
  last (doc (engine_of doc_form))
  = Some (page_of [check_box "agree" "Yes"; text_field "first" "Grace"])
  ∧ render_page 2 default_zoom (engine_of doc_form)
    = (Py.Raise (Py.ValueError "page not in document"), engine_of doc_form)
  ∧ render_page (-1) default_zoom (engine_of doc_form)
    = (Py.Ok
         {| fitz.pix_source :=
              Some (page_of [check_box "agree" "Yes";
                             text_field "first" "Grace"]);
            fitz.pix_matrix :=
              {| fitz.mx_a := default_zoom; fitz.mx_d := default_zoom |} |},
       engine_of doc_form).
Proof.
  split; [reflexivity|]. split.
  - exact (proj1 (render_page_bounds (engine_of doc_form) default_zoom)).
  - exact (proj2 (render_page_bounds (engine_of doc_form) default_zoom)
             _ eq_refl).
Defined.

(** C4, as stated, fails for -1: on the two-page [doc_form] the call
    [render_page(-1)] returns a pixmap, the one [render_page(1)] returns,
    and no error. *)
Lemma render_page_minus_one_renders :
  (page_count (engine_of doc_form)).1 = Py.Ok 2
  ∧ (render_page (-1) default_zoom (engine_of doc_form)).1
    = (render_page 1 default_zoom (engine_of doc_form)).1
  ∧ Py.raised (render_page (-1) default_zoom (engine_of doc_form)).1 = None
  ∧ (fitz.pix_source
       <$> Py.returned (render_page (-1) default_zoom (engine_of doc_form)).1)
    = Some (doc_form !! 1%nat).
Proof. repeat split; reflexivity. Qed.

End Rendering.

(* ===================================================================== *)
(** ** The page count under mutation *)
(* ===================================================================== *)

Section PageCount.

Lemma len_set_annot (d : fitz.Document) (p i : nat)
    (f : fitz.Annot → fitz.Annot) :
  fitz.len (set_annot p i f d) = fitz.len d.
Proof. unfold fitz.len, set_annot. by rewrite length_alter. Qed.

Lemma len_Page_insert_text (d : fitz.Document) (page : fitz.Page)
    (point : float * float) (text : string) (fontsize : float) :
  fitz.len (fitz.Page_insert_text page point text fontsize d) = fitz.len d.
Proof. unfold fitz.len, fitz.Page_insert_text. by rewrite length_alter. Qed.

(** C10: [page_count] returns the same number after [update_form_field] and
    after [insert_text] as before, for all arguments, whether the call
    returned or raised. *)
Theorem page_count_invariant (self : PDFEngine) (name value : string)
    (page_number : Z) (x y : float) (text : string) (font_size : float) :
  (page_count (update_form_field name value self).2).1 = (page_count self).1
  ∧ (page_count (insert_text page_number x y text font_size self).2).1
    = (page_count self).1.
Proof.
  split.
  - rewrite update_form_field_effect. simpl.
    destruct (first_match (doc self) name); [|done].
    simpl. by rewrite len_set_annot.
  - unfold insert_text.
    destruct (fitz.load_page (doc self) page_number); [|done].
    simpl. by rewrite len_Page_insert_text.
Qed.

End PageCount.

(* ===================================================================== *)
(** ** [save] *)
(* ===================================================================== *)

Section Save.

(** C8, as stated, fails: saving [doc_form] to "out.pdf" on a device that
    fails the write raises, the only call made is [Document.save] on
    "out.pdf" itself, which is not a write to a temporary file followed by
    a rename, and "out.pdf" is left holding a partial file. *)
Lemma save_leaves_partial_file :
  let r := save "out.pdf" false (engine_of doc_form) world_full in
  r.1 = Py.Raise (Py.OSError "No space left on device")
  ∧ os.calls r.2 = [os.DocSave "out.pdf" false]
  ∧ os.temp_then_rename "out.pdf" (os.calls r.2) = false
  ∧ os.files world_full !! "out.pdf" = None
  ∧ os.files r.2 !! "out.pdf" = Some (os.Partial doc_form).
Proof.
  repeat split; reflexivity.
Qed.

End Save.

(* ===================================================================== *)
(** ** Writing annotations: algebra of [set_annot] *)
(* ===================================================================== *)

Section SetAnnot.

Lemma set_annot_ext (p i : nat) (f g : fitz.Annot → fitz.Annot)
    (d : fitz.Document) :
  (∀ a, f a = g a) → set_annot p i f d = set_annot p i g d.
Proof.
  intros Hfg. unfold set_annot. apply list_alter_ext; [|done].
  intros pg _. destruct (fitz.pg_widgets pg); [done..|].
  do 2 f_equal. by apply list_alter_ext.
Qed.

Lemma set_annot_compose (p i : nat) (f g : fitz.Annot → fitz.Annot)
    (d : fitz.Document) :
  set_annot p i f (set_annot p i g d) = set_annot p i (f ∘ g) d.
Proof.
  unfold set_annot. rewrite list_alter_alter_eq.
  apply list_alter_ext; [|done]. intros pg _. simpl.
  destruct (fitz.pg_widgets pg) eqn:Hws; simpl; rewrite ?Hws; [done..|].
  by rewrite list_alter_alter_eq.
Qed.

Lemma set_annot_comm (p i q j : nat) (f g : fitz.Annot → fitz.Annot)
    (d : fitz.Document) :
  (p, i) ≠ (q, j) →
  set_annot p i f (set_annot q j g d) = set_annot q j g (set_annot p i f d).
Proof.
  intros Hne. unfold set_annot.
  destruct (decide (p = q)) as [->|Hpq].
  - assert (i ≠ j) as Hij by congruence.
    rewrite !list_alter_alter_eq. apply list_alter_ext; [|done].
    intros pg _. simpl.
    destruct (fitz.pg_widgets pg) eqn:Hws; simpl; rewrite ?Hws; [done..|].
    by rewrite list_alter_alter_ne.
  - by apply list_alter_alter_ne.
Qed.

(** Giving a value does not touch the text of any page. *)
Lemma pg_text_set_annot (p i : nat) (f : fitz.Annot → fitz.Annot)
    (d : fitz.Document) :
  fitz.pg_text <$> set_annot p i f d = fitz.pg_text <$> d.
Proof.
  unfold set_annot.
  rewrite (list_fmap_alter fitz.pg_text _ id).
  - by apply list_alter_id.
  - apply Forall_forall. intros pg _. by destruct (fitz.pg_widgets pg).
Qed.

(** Two widget objects of one document at the same place are the same. *)
Lemma all_widgets_same_place (d : fitz.Document) (u w : fitz.Widget) :
  u ∈ all_widgets d → w ∈ all_widgets d → place u = place w → u = w.
Proof.
  intros (a & Ha & Hu)%all_widgets_place (b & Hb & Hw)%all_widgets_place.
  unfold place. intros [= Hp Hi]. rewrite Hp, Hi in Ha, Hu.
  rewrite Hu, Hw. congruence.
Qed.

Lemma field_name_revalue (p i : nat) (v : Py.val) (u : fitz.Widget) :
  fitz.field_name (revalue p i v u) = fitz.field_name u.
Proof. unfold revalue. by case_decide. Qed.

Lemma field_type_revalue (p i : nat) (v : Py.val) (u : fitz.Widget) :
  fitz.field_type (revalue p i v u) = fitz.field_type u.
Proof. unfold revalue. by case_decide. Qed.

Lemma named_revalue (p i : nat) (v : Py.val) (u : fitz.Widget) :
  named (revalue p i v u) = named u.
Proof. unfold named. by rewrite field_name_revalue. Qed.

Lemma place_revalue (p i : nat) (v : Py.val) (u : fitz.Widget) :
  place (revalue p i v u) = place u.
Proof. unfold revalue. by case_decide. Qed.

Lemma find_matches_revalue (p i : nat) (v : Py.val) (m : string)
    (l : list fitz.Widget) :
  List.find (matches m) (revalue p i v <$> l)
  = revalue p i v <$> List.find (matches m) l.
Proof.
  induction l as [|u l IH]; [done|]. cbn [fmap list_fmap List.find].
  unfold matches at 1 3. rewrite field_name_revalue.
  by destruct (Py.eq (fitz.field_name u) (Py.Str m)).
Qed.

(** The first widget of any name stands at the same place after a value was
    written somewhere. *)
Lemma first_match_set_annot (d : fitz.Document) (p i : nat) (v : Py.val)
    (m : string) :
  first_match (set_annot p i (with_value v) d) m
  = revalue p i v <$> first_match d m.
Proof.
  unfold first_match. by rewrite all_widgets_set_annot, find_matches_revalue.
Qed.

Lemma first_match_elem (d : fitz.Document) (n : string) (w : fitz.Widget) :
  first_match d n = Some w → w ∈ all_widgets d ∧ fitz.field_name w = Py.Str n.
Proof.
  intros [Hin Hm]%find_some. split; [by apply list_elem_of_In|].
  by apply eq_Str_iff.
Qed.

End SetAnnot.

(* ===================================================================== *)
(** ** How calls of [update_form_field] compose *)
(* ===================================================================== *)

Section UpdateCompose.

(** X2: calls with different names commute: the object after updating [n1]
    and then [n2] is the object after updating [n2] and then [n1]. *)
Theorem update_form_field_commute (self : PDFEngine) (n1 v1 n2 v2 : string) :
  n1 ≠ n2 →
  (update_form_field n2 v2 (update_form_field n1 v1 self).2).2
  = (update_form_field n1 v1 (update_form_field n2 v2 self).2).2.
Proof.
  intros Hne. rewrite !update_form_field_effect. simpl.
  destruct (first_match (doc self) n1) as [w1|] eqn:H1;
    destruct (first_match (doc self) n2) as [w2|] eqn:H2; simpl;
    rewrite ?first_match_set_annot, ?H1, ?H2; simpl; try done.
  pose proof (place_revalue (fitz.w_page w1) (fitz.w_index w1)
                (Py.Str v1) w2) as Hp2.
  pose proof (place_revalue (fitz.w_page w2) (fitz.w_index w2)
                (Py.Str v2) w1) as Hp1.
  injection Hp2 as -> ->. injection Hp1 as -> ->.
  unfold with_doc. simpl. f_equal.
  apply set_annot_comm. intros Hsame.
  apply first_match_elem in H1 as [Hin1 Hn1].
  apply first_match_elem in H2 as [Hin2 Hn2].
  assert (w2 = w1) as -> by (by apply (all_widgets_same_place (doc self))).
  congruence.
Qed.

Lemma update_form_field_commute_witness :
  "first" ≠ "agree"
  ∧ (update_form_field "agree" "Off"
       (update_form_field "first" "Alan" (engine_of doc_form)).2).2
    = (update_form_field "first" "Alan"
         (update_form_field "agree" "Off" (engine_of doc_form)).2).2.
Proof.
  assert ("first" ≠ "agree") as H by discriminate.
  split; [exact H|].
  exact (update_form_field_commute (engine_of doc_form)
           "first" "Alan" "agree" "Off" H).
Defined.

(** X3: [update_form_field] leaves the text of every page alone. *)
Theorem update_form_field_keeps_text (self : PDFEngine) (n v : string) :
  fitz.pg_text <$> doc (update_form_field n v self).2
  = fitz.pg_text <$> doc self.
Proof.
  rewrite update_form_field_effect. simpl.
  destruct (first_match (doc self) n); [|done].
  simpl. apply pg_text_set_annot.
Qed.

End UpdateCompose.

(* ===================================================================== *)
(** ** The listing before and after an update *)
(* ===================================================================== *)

Section ListingUnderUpdate.

Lemma listing_shape_revalue (p i : nat) (v : Py.val)
    (l : list fitz.Widget) :
  let fields := to_dict <$> List.filter named l in
  let fields' := to_dict <$> List.filter named (revalue p i v <$> l) in
  fd_name <$> fields' = fd_name <$> fields
  ∧ fd_type <$> fields' = fd_type <$> fields.
Proof.
  induction l as [|u l [IHn IHt]]; [done|].
  cbn [fmap list_fmap List.filter]. rewrite !named_revalue.
  destruct (named u); [|done].
  cbn [fmap list_fmap to_dict fd_name fd_type].
  rewrite field_name_revalue, field_type_revalue. split; by f_equal.
Qed.

Lemma listing_others_revalue (p i : nat) (v : Py.val) (n : string)
    (l : list fitz.Widget) :
  (∀ u, u ∈ l → at_place p i u → fitz.field_name u = Py.Str n) →
  List.filter (λ f, negb (Py.eq (fd_name f) (Py.Str n)))
    (to_dict <$> List.filter named (revalue p i v <$> l))
  = List.filter (λ f, negb (Py.eq (fd_name f) (Py.Str n)))
      (to_dict <$> List.filter named l).
Proof.
  intros Hplace. induction l as [|u l IH]; [done|].
  assert (∀ u', u' ∈ l → at_place p i u' → fitz.field_name u' = Py.Str n)
    as Hl by (intros u' Hin; apply Hplace; by right).
  specialize (IH Hl).
  cbn [fmap list_fmap List.filter]. rewrite named_revalue.
  destruct (named u); [|exact IH].
  cbn [fmap list_fmap List.filter to_dict fd_name].
  rewrite field_name_revalue.
  destruct (Py.eq (fitz.field_name u) (Py.Str n)) eqn:Hu; simpl.
  - exact IH.
  - f_equal; [|exact IH]. unfold revalue. case_decide as Hat; [|done].
    assert (fitz.field_name u = Py.Str n) as Hname
      by (apply Hplace; [by left | done]).
    apply eq_Str_iff in Hname. congruence.
Qed.

(** X4: [update_form_field] changes no name and no type.  The listing after
    the call has the same length as before and, entry by entry, the same
    names and the same types. *)
Theorem update_form_field_keeps_names (self : PDFEngine) (n v : string) :
  ∃ fields fields',
    (list_form_fields self).1 = Py.Ok fields
    ∧ (list_form_fields (update_form_field n v self).2).1 = Py.Ok fields'
    ∧ fd_name <$> fields' = fd_name <$> fields
    ∧ fd_type <$> fields' = fd_type <$> fields.
Proof.
  rewrite update_form_field_effect, !list_form_fields_all. simpl.
  eexists _, _. split; [done|]. split; [done|].
  destruct (first_match (doc self) n) as [w|]; [|done]. simpl.
  rewrite all_widgets_set_annot. apply listing_shape_revalue.
Qed.

(** X5: the entries listed under any other name are the same after
    [update_form_field(n, v)] as before, values included. *)
Theorem update_form_field_keeps_others (self : PDFEngine) (n v : string) :
  ∃ fields fields',
    (list_form_fields self).1 = Py.Ok fields
    ∧ (list_form_fields (update_form_field n v self).2).1 = Py.Ok fields'
    ∧ List.filter (λ f, negb (Py.eq (fd_name f) (Py.Str n))) fields'
      = List.filter (λ f, negb (Py.eq (fd_name f) (Py.Str n))) fields.
Proof.
  rewrite update_form_field_effect, !list_form_fields_all. simpl.
  eexists _, _. split; [done|]. split; [done|].
  destruct (first_match (doc self) n) as [w|] eqn:Hfind; [|done]. simpl.
  rewrite all_widgets_set_annot. apply listing_others_revalue.
  intros u Hin [Hp Hi].
  apply first_match_elem in Hfind as [Hw Hname].
  assert (u = w) as -> by
    (apply (all_widgets_same_place (doc self)); [done..|];
     unfold place; congruence).
  exact Hname.
Qed.

End ListingUnderUpdate.

(* ===================================================================== *)
(** ** [insert_text] *)
(* ===================================================================== *)

Section InsertText.

Lemma all_widgets_insert_text (d : fitz.Document) (page : fitz.Page)
    (point : float * float) (text : string) (fontsize : float) :
  all_widgets (fitz.Page_insert_text page point text fontsize d)
  = all_widgets d.
Proof.
  unfold all_widgets, fitz.Page_insert_text. rewrite imap_alter.
  f_equal. apply imap_ext. intros j pg _. simpl. by case_decide.
Qed.

(** X6: [insert_text] does not touch the form.  Whatever its arguments, and
    whether it returns or raises, [list_form_fields] gives the same list
    afterwards as before. *)
Theorem insert_text_keeps_fields (self : PDFEngine) (page_number : Z)
    (x y : float) (text : string) (font_size : float) :
  (list_form_fields (insert_text page_number x y text font_size self).2).1
  = (list_form_fields self).1.
Proof.
  rewrite !list_form_fields_all. simpl. unfold insert_text.
  destruct (fitz.load_page (doc self) page_number); [|done].
  simpl. by rewrite all_widgets_insert_text.
Qed.

(** X8: a page number at or beyond the page count makes [insert_text] raise
    the library's [ValueError] and leaves the object as it was. *)
Theorem insert_text_out_of_bounds (self : PDFEngine) (page_number : Z)
    (x y : float) (text : string) (font_size : float) :
  fitz.len (doc self) ≤ page_number →
  insert_text page_number x y text font_size self
  = (Py.Raise (Py.ValueError "page not in document"), self).
Proof.
  intros Hbeyond. unfold insert_text, fitz.load_page.
  by replace (fitz.len (doc self) <=? page_number) with true
    by (symmetry; apply Z.leb_le; lia).
Qed.

Lemma insert_text_out_of_bounds_witness :
  fitz.len (doc (engine_of doc_form)) ≤ 2
  ∧ insert_text 2 72%float 720%float "Hello" default_font_size
      (engine_of doc_form)
    = (Py.Raise (Py.ValueError "page not in document"), engine_of doc_form).
Proof.
  assert (fitz.len (doc (engine_of doc_form)) ≤ 2) as H by discriminate.
  split; [exact H|].
  exact (insert_text_out_of_bounds (engine_of doc_form) 2 72%float 720%float
           "Hello" default_font_size H).
Defined.

End InsertText.

(* ===================================================================== *)
(** ** Page numbers below zero *)
(* ===================================================================== *)

Section NegativePages.

Lemma load_page_valid (d : fitz.Document) (index : Z) :
  0 ≤ index < fitz.len d →
  fitz.load_page d index = Py.Ok {| fitz.number := Z.to_nat index |}.
Proof.
  intros Hrange. unfold fitz.load_page.
  replace (fitz.len d <=? index) with false by (symmetry; apply Z.leb_gt; lia).
  replace (fitz.len d =? 0) with false by (symmetry; apply Z.eqb_neq; lia).
  simpl. by rewrite Z.mod_small by lia.
Qed.

Lemma load_page_negative (d : fitz.Document) (index : Z) :
  - fitz.len d ≤ index < 0 →
  fitz.load_page d index = fitz.load_page d (index + fitz.len d).
Proof.
  intros Hrange. unfold fitz.load_page.
  replace (fitz.len d <=? index) with false by (symmetry; apply Z.leb_gt; lia).
  replace (fitz.len d <=? index + fitz.len d) with false
    by (symmetry; apply Z.leb_gt; lia).
  replace (fitz.len d =? 0) with false by (symmetry; apply Z.eqb_neq; lia).
  simpl. do 2 f_equal.
  rewrite <- (Z_mod_plus_full index 1 (fitz.len d)).
  by rewrite Z.mul_1_l.
Qed.

(** X9: neither [render_page] nor [insert_text] guards against a negative
    page number.  A number between minus the page count and -1 addresses the
    page that many places from the end: the calls do what they do for the
    number plus the page count. *)
Theorem negative_page_number_wraps (self : PDFEngine) (page_number : Z)
    (zoom x y : float) (text : string) (font_size : float) :
  - fitz.len (doc self) ≤ page_number < 0 →
  render_page page_number zoom self
  = render_page (page_number + fitz.len (doc self)) zoom self
  ∧ insert_text page_number x y text font_size self
    = insert_text (page_number + fitz.len (doc self)) x y text font_size self.
Proof.
  intros Hrange. unfold render_page, insert_text.
  by rewrite (load_page_negative _ _ Hrange).
Qed.

Lemma negative_page_number_wraps_witness :
  - fitz.len (doc (engine_of doc_form)) ≤ -2 < 0
  ∧ render_page (-2) default_zoom (engine_of doc_form)
    = render_page (-2 + 2) default_zoom (engine_of doc_form)
  ∧ insert_text (-2) 72%float 720%float "Hello" default_font_size
      (engine_of doc_form)
    = insert_text (-2 + 2) 72%float 720%float "Hello" default_font_size
        (engine_of doc_form).
Proof.
  assert (- fitz.len (doc (engine_of doc_form)) ≤ -2 < 0) as H
    by (split; [discriminate | reflexivity]).
  split; [exact H|].
  exact (negative_page_number_wraps (engine_of doc_form) (-2) default_zoom
           72%float 720%float "Hello" default_font_size H).
Defined.

End NegativePages.

(* ===================================================================== *)
(** ** Page navigation in the window *)
(* ===================================================================== *)

Section Navigation.

Lemma render_page_valid (e : PDFEngine) (index : Z) :
  0 ≤ index < fitz.len (doc e) →
  render_page index show_zoom e = (Py.Ok (page_pixmap (doc e) index), e).
Proof.
  intros Hrange. unfold render_page. by rewrite load_page_valid.
Qed.

Lemma show_page_valid (ed : PDFEditor) (e : PDFEngine) (index : Z) :
  engine ed = Some e →
  0 ≤ index < fitz.len (doc e) →
  show_page index ed
  = (Py.Ok (),
     {| engine := Some {| doc := doc e; current_page := index |};
        add_text_mode := add_text_mode ed;
        page_label := Some (page_pixmap (doc e) index);
        page_spin := Qt.setValue (index + 1) (page_spin ed) |}).
Proof.
  intros He Hrange. unfold show_page. rewrite He.
  by rewrite render_page_valid.
Qed.

Lemma with_engine_same (ed : PDFEditor) (e : PDFEngine) :
  engine ed = Some e → with_engine ed e = ed.
Proof. intros He. destruct ed. simpl in *. by subst. Qed.

(** X10: navigation stays inside the document.  When the current page is a
    page of the document, [prev_page] and [next_page] return without an
    exception, leave the document as it is, and the current page is again a
    page of the document. *)
Theorem navigation_stays_in_range (ed : PDFEditor) :
  in_range ed →
  ((prev_page ed).1 = Py.Ok ()
   ∧ in_range (prev_page ed).2
   ∧ doc <$> engine (prev_page ed).2 = doc <$> engine ed)
  ∧ ((next_page ed).1 = Py.Ok ()
     ∧ in_range (next_page ed).2
     ∧ doc <$> engine (next_page ed).2 = doc <$> engine ed).
Proof.
  intros (e & He & Hrange). split.
  - unfold prev_page. rewrite He.
    destruct (0 <? current_page e) eqn:Hpos.
    + apply Z.ltb_lt in Hpos.
      rewrite (show_page_valid ed e) by (done || lia). simpl.
      split; [done|]. split; [|done].
      eexists. split; [done|]. simpl. lia.
    + simpl. split; [done|]. split; [|by rewrite ?He]. by exists e.
  - unfold next_page, page_count. rewrite He.
    rewrite (with_engine_same _ _ He).
    destruct (current_page e <? fitz.len (doc e) - 1) eqn:Hlast.
    + apply Z.ltb_lt in Hlast.
      rewrite (show_page_valid ed e) by (done || lia). simpl.
      split; [done|]. split; [|done].
      eexists. split; [done|]. simpl. lia.
    + simpl. split; [done|]. split; [|by rewrite ?He]. by exists e.
Qed.

Lemma navigation_stays_in_range_witness :
  in_range (editor_of doc_form 1)
  ∧ ((prev_page (editor_of doc_form 1)).1 = Py.Ok ()
     ∧ in_range (prev_page (editor_of doc_form 1)).2
     ∧ doc <$> engine (prev_page (editor_of doc_form 1)).2
       = doc <$> engine (editor_of doc_form 1))
  ∧ ((next_page (editor_of doc_form 1)).1 = Py.Ok ()
     ∧ in_range (next_page (editor_of doc_form 1)).2
     ∧ doc <$> engine (next_page (editor_of doc_form 1)).2
       = doc <$> engine (editor_of doc_form 1)).
Proof.
  assert (in_range (editor_of doc_form 1)) as H.
  { eexists. split; [reflexivity|]. split; [discriminate | reflexivity]. }
  split; [exact H|].
  exact (navigation_stays_in_range (editor_of doc_form 1) H).
Defined.

(** X11: at the first page [prev_page] does nothing, and at the last page
    [next_page] does nothing: the window is exactly as before. *)
Theorem navigation_stops_at_ends (ed : PDFEditor) (e : PDFEngine) :
  engine ed = Some e →
  (current_page e ≤ 0 → prev_page ed = (Py.Ok (), ed))
  ∧ (fitz.len (doc e) - 1 ≤ current_page e → next_page ed = (Py.Ok (), ed)).
Proof.
  intros He. split.
  - intros Hfirst. unfold prev_page. rewrite He.
    by replace (0 <? current_page e) with false
      by (symmetry; apply Z.ltb_ge; lia).
  - intros Hlast. unfold next_page, page_count. rewrite He.
    rewrite (with_engine_same _ _ He).
    by replace (current_page e <? fitz.len (doc e) - 1) with false
      by (symmetry; apply Z.ltb_ge; lia).
Qed.

Lemma navigation_stops_at_ends_witness :
  engine (editor_of doc_form 0) = Some {| doc := doc_form; current_page := 0 |}
  ∧ prev_page (editor_of doc_form 0) = (Py.Ok (), editor_of doc_form 0)
  ∧ next_page (editor_of doc_form 1) = (Py.Ok (), editor_of doc_form 1).
Proof.
  split; [reflexivity|]. split.
  - apply (proj1 (navigation_stops_at_ends (editor_of doc_form 0) _ eq_refl)).
    reflexivity.
  - apply (proj2 (navigation_stops_at_ends (editor_of doc_form 1) _ eq_refl)).
    discriminate.
Defined.

(** X12: [next_page] followed by [prev_page] comes back.  From a page that is
    not the last one, the two calls leave the window as [show_page] of the
    page they started from leaves it. *)
Theorem next_then_prev_returns (ed : PDFEditor) (e : PDFEngine) :
  engine ed = Some e →
  0 ≤ current_page e < fitz.len (doc e) - 1 →
  prev_page (next_page ed).2 = show_page (current_page e) ed.
Proof.
  intros He Hrange.
  unfold next_page, page_count. rewrite He, (with_engine_same _ _ He).
  replace (current_page e <? fitz.len (doc e) - 1) with true
    by (symmetry; apply Z.ltb_lt; lia).
  rewrite (show_page_valid ed e) by (done || lia). simpl.
  unfold prev_page. simpl.
  replace (0 <? current_page e + 1) with true
    by (symmetry; apply Z.ltb_lt; lia).
  rewrite (show_page_valid _ {| doc := doc e;
                                current_page := current_page e + 1 |})
    by (done || simpl; lia).
  rewrite (show_page_valid ed e) by (done || lia). simpl.
  replace (current_page e + 1 - 1) with (current_page e) by lia.
  done.
Qed.

Lemma next_then_prev_returns_witness :
  engine (editor_of doc_form 0) = Some {| doc := doc_form; current_page := 0 |}
  ∧ 0 ≤ 0 < fitz.len doc_form - 1
  ∧ prev_page (next_page (editor_of doc_form 0)).2
    = show_page 0 (editor_of doc_form 0).
Proof.
  assert (0 ≤ 0 < fitz.len doc_form - 1) as H
    by (split; [discriminate | reflexivity]).
  split; [reflexivity|]. split; [exact H|].
  exact (next_then_prev_returns (editor_of doc_form 0) _ eq_refl H).
Defined.

(** X13: [show_page] stores the page number before it renders.  When
    [goto_page] is given a value beyond the page count, the call raises the
    library's [ValueError], the label and the spin box are as before, and the
    engine is left with a current page that is not a page of the document. *)
Theorem goto_page_beyond_end (ed : PDFEditor) (e : PDFEngine) (val : Z) :
  engine ed = Some e →
  fitz.len (doc e) < val →
  goto_page val ed
  = (Py.Raise (Py.ValueError "page not in document"),
     with_engine ed {| doc := doc e; current_page := val - 1 |})
  ∧ ¬ in_range (goto_page val ed).2.
Proof.
  intros He Hval.
  assert (goto_page val ed
          = (Py.Raise (Py.ValueError "page not in document"),
             with_engine ed {| doc := doc e; current_page := val - 1 |}))
    as Hgoto.
  { unfold goto_page, show_page, render_page, fitz.load_page. rewrite He.
    simpl.
    by replace (fitz.len (doc e) <=? val - 1) with true
      by (symmetry; apply Z.leb_le; lia). }
  split; [exact Hgoto|]. rewrite Hgoto. simpl.
  intros (e' & He' & Hrange). simpl in He'. injection He' as <-.
  simpl in Hrange. lia.
Qed.

Lemma goto_page_beyond_end_witness :
  engine (editor_of doc_form 0) = Some {| doc := doc_form; current_page := 0 |}
  ∧ fitz.len doc_form < 3
  ∧ goto_page 3 (editor_of doc_form 0)
    = (Py.Raise (Py.ValueError "page not in document"),
       with_engine (editor_of doc_form 0)
         {| doc := doc_form; current_page := 3 - 1 |})
  ∧ ¬ in_range (goto_page 3 (editor_of doc_form 0)).2.
Proof.
  assert (fitz.len doc_form < 3) as H by reflexivity.
  split; [reflexivity|]. split; [exact H|].
  exact (goto_page_beyond_end (editor_of doc_form 0) _ 3 eq_refl H).
Defined.

End Navigation.

(* ===================================================================== *)
(** ** The dict of [FieldsDialog] *)
(* ===================================================================== *)

Section Dict.

Lemma dict_get_app (k : string) (a b : list (string * string)) :
  dict_get k (a ++ b)
  = match dict_get k a with
    | Some v => Some v
    | None => dict_get k b
    end.
Proof.
  unfold dict_get. induction a as [|[k' v'] a IH]; [done|]. simpl.
  by destruct (String.eqb k' k).
Qed.

Lemma dict_get_dict_set (k k' v : string) (d : list (string * string)) :
  dict_get k (dict_set k' v d)
  = if String.eqb k' k then Some v else dict_get k d.
Proof.
  induction d as [|[k0 v0] d IH]; simpl.
  - unfold dict_get. simpl. by destruct (String.eqb k' k).
  - destruct (String.eqb k0 k') eqn:H0.
    + apply String.eqb_eq in H0 as ->. unfold dict_get. simpl.
      by destruct (String.eqb k' k).
    + unfold dict_get in *. simpl.
      destruct (String.eqb k0 k) eqn:H1; [|exact IH]. simpl.
      apply String.eqb_eq in H1 as ->.
      by rewrite String.eqb_sym, H0.
Qed.

Lemma dict_set_keys (k v : string) (d : list (string * string)) :
  (dict_set k v d).*1 = if bool_decide (k ∈ d.*1) then d.*1 else d.*1 ++ [k].
Proof.
  induction d as [|[k0 v0] d IH]; [done|]. cbn [dict_set].
  destruct (String.eqb k0 k) eqn:H0.
  - apply String.eqb_eq in H0 as ->. rewrite !fmap_cons. cbn [fst].
    by rewrite bool_decide_eq_true_2 by left.
  - apply String.eqb_neq in H0. rewrite !fmap_cons, IH. cbn [fst].
    destruct (bool_decide (k ∈ d.*1)) eqn:Hin.
    + apply bool_decide_eq_true_1 in Hin.
      by rewrite bool_decide_eq_true_2 by (by right).
    + apply bool_decide_eq_false_1 in Hin.
      rewrite bool_decide_eq_false_2; [done|].
      rewrite elem_of_cons. intros [Heq|Hd]; [by subst | done].
Qed.

Lemma dict_set_NoDup (k v : string) (d : list (string * string)) :
  NoDup d.*1 → NoDup (dict_set k v d).*1.
Proof.
  intros Hd. rewrite dict_set_keys.
  destruct (bool_decide (k ∈ d.*1)) eqn:Hin; [done|].
  apply bool_decide_eq_false_1 in Hin.
  apply NoDup_app. split; [done|]. split; [|apply NoDup_singleton].
  intros x Hx ->%list_elem_of_singleton. done.
Qed.

Lemma fold_dict_set_NoDup (rows d : list (string * string)) :
  NoDup d.*1 →
  NoDup (fold_left (λ updates row, dict_set row.1 row.2 updates) rows d).*1.
Proof.
  revert d. induction rows as [|r rows IH]; intros d Hd; [done|].
  simpl. apply IH. by apply dict_set_NoDup.
Qed.

Lemma fold_dict_set_get (k : string) (rows d : list (string * string)) :
  dict_get k (fold_left (λ updates row, dict_set row.1 row.2 updates) rows d)
  = match last_row k rows with
    | Some v => Some v
    | None => dict_get k d
    end.
Proof.
  revert d. induction rows as [|[k' v'] rows IH]; intros d; [done|].
  simpl. rewrite IH. unfold last_row. simpl. rewrite dict_get_app.
  destruct (dict_get k (rev rows)); [done|].
  rewrite dict_get_dict_set. unfold dict_get. simpl.
  by destruct (String.eqb k' k).
Qed.


End Dict.

(* ===================================================================== *)
(** ** The form-field dialog *)
(* ===================================================================== *)

Section FieldsDialogRun.



Lemma show_page_keeps_doc (index : Z) (ed : PDFEditor) (e : PDFEngine) :
  engine ed = Some e →
  ∃ e', engine (show_page index ed).2 = Some e' ∧ doc e' = doc e.
Proof.
  intros He. unfold show_page, render_page. rewrite He.
  destruct (fitz.load_page _ _); simpl; by eexists.
Qed.

Lemma dict_get_elem (k v : string) (d : list (string * string)) :
  dict_get k d = Some v → (k, v) ∈ d.
Proof.
  unfold dict_get. destruct (List.find _ d) as [[k' v']|] eqn:Hfind; [|done].
  intros [= ->]. apply find_some in Hfind as [Hin Hk].
  apply String.eqb_eq in Hk. simpl in Hk. subst k'.
  by apply list_elem_of_In.
Qed.


End FieldsDialogRun.

Section FieldsDialogProperties.

(** X17: Cancel changes nothing.  When the dialog is closed with Cancel,
    whatever was typed into it, [open_fields_dialog] leaves the window and
    the document exactly as they were. *)
Theorem fields_dialog_cancel (u : user) (ed : PDFEditor) :
  answer u = Qt.Rejected →
  open_fields_dialog u ed = (Py.Ok (), ed).
Proof.
  intros Hcancel. unfold open_fields_dialog.
  destruct (engine ed) as [e|] eqn:He; [|done].
  rewrite list_form_fields_all. simpl.
  rewrite (with_engine_same _ _ He).
  destruct (to_dict <$> _); [done|].
  unfold exec. by rewrite Hcancel.
Qed.

Lemma fields_dialog_cancel_witness :
  answer user_cancel = Qt.Rejected
  ∧ open_fields_dialog user_cancel (editor_of doc_form 0)
    = (Py.Ok (), editor_of doc_form 0).
Proof.
  split; [reflexivity|].
  exact (fields_dialog_cancel user_cancel (editor_of doc_form 0) eq_refl).
Defined.

End FieldsDialogProperties.

(* ===================================================================== *)
(** ** Add-text mode *)
(* ===================================================================== *)

Section AddTextProperties.

Lemma insert_text_valid (e : PDFEngine) (index : Z) (x y : float)
    (text : string) (font_size : float) :
  0 ≤ index < fitz.len (doc e) →
  insert_text index x y text font_size e
  = (Py.Ok Py.None_,
     with_doc e
       (fitz.Page_insert_text {| fitz.number := Z.to_nat index |} (x, y)
          text font_size (doc e))).
Proof.
  intros Hrange. unfold insert_text. by rewrite load_page_valid.
Qed.

(** X19: outside add-text mode nothing is inserted.  Unless the event is a
    left press on the page label, in add-text mode, with an engine,
    [eventFilter] hands it to the base class and leaves the window as it
    is. *)
Theorem eventFilter_passes_on (to_float : Z → float) (ev : event)
    (inherited : bool) (ed : PDFEditor) :
  add_text_mode ed = false ∨ on_page_label ev = false ∨ engine ed = None
  ∨ is_press ev = false ∨ is_left ev = false →
  eventFilter to_float ev inherited ed = (inr inherited, ed).
Proof.
  unfold eventFilter.
  intros [-> | [-> | [-> | [-> | ->]]]]; simpl;
    by rewrite ?andb_false_r.
Qed.

(** X20: a click that is turned down.  When the label holds no pixmap, or
    the text prompt is cancelled or left empty, or the click falls into the
    padding around the pixmap (left of it, right of it, above or below),
    [_handle_add_text_click] returns and the window and the document are as
    before. *)
Theorem add_text_click_declined (to_float : Z → float) (c : click)
    (ed : PDFEditor) :
  match label_pixmap c with
  | None => True
  | Some (pm_w, pm_h) =>
      (typed c).2 = false ∨ (typed c).1 = ""
      ∨ (pos_label c).1 < ((label_size c).1 - pm_w) `div` 2
      ∨ ((label_size c).1 - pm_w) `div` 2 + pm_w < (pos_label c).1
      ∨ (pos_label c).2 < ((label_size c).2 - pm_h) `div` 2
      ∨ ((label_size c).2 - pm_h) `div` 2 + pm_h < (pos_label c).2
  end →
  _handle_add_text_click to_float c ed = (None, ed).
Proof.
  unfold _handle_add_text_click.
  destruct (label_pixmap c) as [[pm_w pm_h]|]; [|done].
  destruct (typed c) as [text ok], (label_size c) as [lab_w lab_h],
    (pos_label c) as [px py]. simpl.
  intros [-> | [-> | Hout]]; [done | by rewrite andb_false_r |].
  destruct (negb (ok && negb (String.eqb text ""))); [done|].
  assert ((0 <=? px - (lab_w - pm_w) `div` 2)
          && (px - (lab_w - pm_w) `div` 2 <=? pm_w)
          && (0 <=? py - (lab_h - pm_h) `div` 2)
          && (py - (lab_h - pm_h) `div` 2 <=? pm_h) = false) as ->; [|done].
  apply not_true_is_false. rewrite !andb_true_iff, !Z.leb_le. lia.
Qed.

Lemma add_text_click_declined_witness :
  _handle_add_text_click float_of_pixels
    {| pos_label := (20, 200); label_pixmap := Some (300, 400);
       typed := ("Hello", true); label_size := (400, 600);
       page_rect := (612%float, 792%float) |}
    (editor_of doc_form 0)
  = (None, editor_of doc_form 0).
Proof.
  apply (add_text_click_declined float_of_pixels
           {| pos_label := (20, 200); label_pixmap := Some (300, 400);
              typed := ("Hello", true); label_size := (400, 600);
              page_rect := (612%float, 792%float) |}
           (editor_of doc_form 0)).
  simpl. right. right. left. reflexivity.
Defined.

(** X21: a click that is taken.  With an engine whose current page is a page
    of the document, a pixmap with sides above zero, a text that is not
    empty, and a click on the pixmap, [_handle_add_text_click] returns
    without failure; the current page has one more text run, with the text
    typed, at font size 12; the other pages, the form and the current page
    number are as before; and the label shows the current page again. *)
Theorem add_text_click_inserts (to_float : Z → float) (c : click)
    (ed : PDFEditor) (e : PDFEngine) (pm_w pm_h : Z) (text : string) :
  engine ed = Some e →
  0 ≤ current_page e < fitz.len (doc e) →
  label_pixmap c = Some (pm_w, pm_h) →
  0 < pm_w → 0 < pm_h →
  typed c = (text, true) → text ≠ "" →
  let x := (pos_label c).1 - ((label_size c).1 - pm_w) `div` 2 in
  let y := (pos_label c).2 - ((label_size c).2 - pm_h) `div` 2 in
  0 ≤ x ≤ pm_w → 0 ≤ y ≤ pm_h →
  let run :=
    {| fitz.tr_point :=
         (PrimFloat.mul (to_float x)
            (PrimFloat.div (page_rect c).1 (to_float pm_w)),
          PrimFloat.mul (to_float y)
            (PrimFloat.div (page_rect c).2 (to_float pm_h)));
       fitz.tr_text := text;
       fitz.tr_fontsize := default_font_size |} in
  ∃ e',
    (_handle_add_text_click to_float c ed).1 = None
    ∧ engine (_handle_add_text_click to_float c ed).2 = Some e'
    ∧ current_page e' = current_page e
    ∧ (∀ k, fitz.pg_text <$> doc e' !! k
            = (λ pg, if decide (Z.of_nat k = current_page e)
                     then fitz.pg_text pg ++ [run] else fitz.pg_text pg)
              <$> doc e !! k)
    ∧ all_widgets (doc e') = all_widgets (doc e)
    ∧ page_label (_handle_add_text_click to_float c ed).2
      = Some (page_pixmap (doc e') (current_page e)).
Proof.
  intros He Hcur Hpix Hw Hh Htyped Htext x y Hx Hy run.
  unfold _handle_add_text_click. rewrite Hpix, Htyped.
  replace (String.eqb text "") with false
    by (symmetry; by apply String.eqb_neq).
  destruct (label_size c) as [lab_w lab_h], (pos_label c) as [px py],
    (page_rect c) as [pdf_w pdf_h]. simpl in *.
  fold x y.
  replace ((0 <=? x) && (x <=? pm_w) && (0 <=? y) && (y <=? pm_h)) with true
    by (symmetry; rewrite !andb_true_iff, !Z.leb_le; lia).
  simpl. rewrite He, load_page_valid by done.
  replace (pm_w =? 0) with false by (symmetry; apply Z.eqb_neq; lia).
  replace (pm_h =? 0) with false by (symmetry; apply Z.eqb_neq; lia).
  rewrite insert_text_valid by done.
  set (d' := fitz.Page_insert_text _ _ _ _ _).
  rewrite (show_page_valid _ (with_doc e d'))
    by (done || (simpl; subst d'; by rewrite len_Page_insert_text)).
  simpl. eexists. split; [done|]. split; [done|]. split; [done|].
  split; [|split; [apply all_widgets_insert_text | done]].
  intros k. subst d'. unfold fitz.Page_insert_text. simpl.
  rewrite list_lookup_alter.
  destruct (decide (Z.to_nat (current_page e) = k)) as [<-|Hk].
  - destruct (doc e !! _); [|done]. simpl. by rewrite decide_True by lia.
  - destruct (doc e !! k); [|done]. simpl. by rewrite decide_False by lia.
Qed.

End AddTextProperties.

Section AddTextWitnesses.

Lemma eventFilter_passes_on_witness :
  (add_text_mode (editor_of doc_form 0) = false
   ∨ on_page_label sample_press = false
   ∨ engine (editor_of doc_form 0) = None
   ∨ is_press sample_press = false ∨ is_left sample_press = false)
  ∧ eventFilter float_of_pixels sample_press false (editor_of doc_form 0)
    = (inr false, editor_of doc_form 0).
Proof.
  assert (add_text_mode (editor_of doc_form 0) = false
          ∨ on_page_label sample_press = false
          ∨ engine (editor_of doc_form 0) = None
          ∨ is_press sample_press = false ∨ is_left sample_press = false)
    as H by (left; reflexivity).
  split; [exact H|].
  exact (eventFilter_passes_on float_of_pixels sample_press false
           (editor_of doc_form 0) H).
Defined.

Lemma add_text_click_inserts_witness :
  let ed' :=
    (_handle_add_text_click float_of_pixels sample_click
       (editor_of doc_form 1)).2 in
  0 ≤ 1 < fitz.len doc_form
  ∧ (0 ≤ 150 - (400 - 300) `div` 2 ≤ 300)
  ∧ (0 ≤ 200 - (600 - 400) `div` 2 ≤ 400)
  ∧ ∃ e',
      (_handle_add_text_click float_of_pixels sample_click
         (editor_of doc_form 1)).1 = None
      ∧ engine ed' = Some e'
      ∧ current_page e' = 1
      ∧ (∀ k, fitz.pg_text <$> doc e' !! k
              = (λ pg,
                   if decide (Z.of_nat k = 1) then
                     fitz.pg_text pg
                       ++ [ {| fitz.tr_point :=
                                 (PrimFloat.mul (float_of_pixels 100)
                                    (PrimFloat.div 612%float
                                       (float_of_pixels 300)),
                                  PrimFloat.mul (float_of_pixels 100)
                                    (PrimFloat.div 792%float
                                       (float_of_pixels 400)));
                               fitz.tr_text := "Hello";
                               fitz.tr_fontsize := default_font_size |} ]
                   else fitz.pg_text pg)
                <$> doc_form !! k)
      ∧ all_widgets (doc e') = all_widgets doc_form
      ∧ page_label ed' = Some (page_pixmap (doc e') 1).
Proof.
  intros ed'.
  assert (0 ≤ 1 < fitz.len doc_form) as Hcur
    by (split; [discriminate | reflexivity]).
  assert (0 ≤ 150 - (400 - 300) `div` 2 ≤ 300) as Hx
    by (split; discriminate).
  assert (0 ≤ 200 - (600 - 400) `div` 2 ≤ 400) as Hy
    by (split; discriminate).
  assert ("Hello" ≠ "") as Htext by discriminate.
  split; [exact Hcur|]. split; [exact Hx|]. split; [exact Hy|].
  exact (add_text_click_inserts float_of_pixels sample_click
           (editor_of doc_form 1) {| doc := doc_form; current_page := 1 |}
           300 400 "Hello" eq_refl Hcur eq_refl eq_refl eq_refl eq_refl
           Htext Hx Hy).
Defined.

End AddTextWitnesses.

(* ===================================================================== *)
(** ** [update_form_field], whatever [update] does *)
(* ===================================================================== *)

Section AnyLibrary.

Lemma any_update_form_field_loop_find
    (Widget_update : fitz.Widget → fitz.Document
                     → Py.result () * fitz.Document)
    (l : list fitz.Widget) (name value : string) (self : PDFEngine) :
  Any.update_form_field_loop Widget_update
    (Py.yield_each l Py.StopIteration) name value self
  = match List.find (matches name) l with
    | None => (Py.Ok Py.None_, self)
    | Some w =>
        match Widget_update (fitz.set_field_value w (Py.Str value))
                (doc self) with
        | (Py.Ok _, d) => (Py.Ok Py.None_, with_doc self d)
        | (Py.Raise e, d) => (Py.Raise e, with_doc self d)
        end
    end.
Proof.
  induction l as [|w l IH]; simpl; [done|].
  unfold matches at 1. by destruct (Py.eq (fitz.field_name w) _).
Qed.

(** The loop over the generator comes to this: the first widget of the
    document, in document order, whose name equals [name] is given the value
    and updated, and no other widget object is touched. *)
Lemma any_update_form_field_first
    (Widget_update : fitz.Widget → fitz.Document
                     → Py.result () * fitz.Document)
    (name value : string) (self : PDFEngine) :
  Any.update_form_field Widget_update name value self
  = match first_match (doc self) name with
    | None => (Py.Ok Py.None_, self)
    | Some w =>
        match Widget_update (fitz.set_field_value w (Py.Str value))
                (doc self) with
        | (Py.Ok _, d) => (Py.Ok Py.None_, with_doc self d)
        | (Py.Raise e, d) => (Py.Raise e, with_doc self d)
        end
    end.
Proof.
  unfold Any.update_form_field. rewrite iter_widgets_all.
  apply any_update_form_field_loop_find.
Qed.

(** The engine of the first part is the case of a library whose [update]
    always succeeds and writes the value as given. *)
Lemma update_form_field_as_any (name value : string) (self : PDFEngine) :
  update_form_field name value self
  = Any.update_form_field (λ w d, (Py.Ok (), fitz.Widget_update w d))
      name value self.
Proof.
  unfold update_form_field. rewrite iter_widgets_all.
  rewrite update_form_field_loop_find, any_update_form_field_first.
  unfold first_match. by destruct (List.find _ _).
Qed.

End AnyLibrary.

(* ===================================================================== *)
(** ** Writing a field *)
(* ===================================================================== *)

Section WriteField.

Lemma imap_imap {A B C} (f : nat → B → C) (g : nat → A → B) (l : list A) :
  imap f (imap g l) = imap (λ i x, f i (g i x)) l.
Proof.
  revert f g. induction l as [|x l IH]; intros f g; [done|].
  simpl. f_equal. apply IH.
Qed.

Lemma annot_at_write_field (t : pymupdf.tree) (field : nat * nat)
    (v : Py.val) (d : fitz.Document) (p i : nat) :
  annot_at (pymupdf.write_field t field v d) p i
  = (λ a, if decide (t (p, i) = field) then with_value v a else a)
      <$> annot_at d p i.
Proof.
  unfold annot_at, pymupdf.write_field. rewrite list_lookup_imap.
  destruct (d !! p) as [pg|]; [|done]. simpl.
  unfold annots. destruct (fitz.pg_widgets pg) eqn:Hws; simpl;
    rewrite ?Hws; [done..|].
  by rewrite list_lookup_imap.
Qed.

Lemma all_widgets_write_field (t : pymupdf.tree) (field : nat * nat)
    (v : Py.val) (d : fitz.Document) :
  all_widgets (pymupdf.write_field t field v d)
  = refield t field v <$> all_widgets d.
Proof.
  unfold all_widgets, pymupdf.write_field. rewrite imap_imap.
  change (refield t field v <$> concat (imap page_ws d))
    with (map (refield t field v) (concat (imap page_ws d))).
  rewrite concat_map. f_equal.
  change (map (map (refield t field v)) (imap page_ws d))
    with (fmap (M:=list) (fmap (refield t field v)) (imap page_ws d)).
  rewrite fmap_imap. apply imap_ext. intros p pg _. simpl.
  unfold page_ws, annots.
  destruct (fitz.pg_widgets pg) eqn:Hws; simpl; rewrite ?Hws; [done..|].
  rewrite imap_imap, fmap_imap. apply imap_ext. intros i a _. simpl.
  unfold refield, place. simpl. by case_decide.
Qed.

Lemma field_name_refield (t : pymupdf.tree) (field : nat * nat) (v : Py.val)
    (u : fitz.Widget) :
  fitz.field_name (refield t field v u) = fitz.field_name u.
Proof. unfold refield. by case_decide. Qed.

Lemma field_type_refield (t : pymupdf.tree) (field : nat * nat) (v : Py.val)
    (u : fitz.Widget) :
  fitz.field_type (refield t field v u) = fitz.field_type u.
Proof. unfold refield. by case_decide. Qed.

End WriteField.

(* ===================================================================== *)
(** ** [update_form_field] over the field tree *)
(* ===================================================================== *)

Section OverFields.

Lemma with_doc_same (self : PDFEngine) : with_doc self (doc self) = self.
Proof. by destruct self. Qed.

(** A call that finds a widget under a name that is not empty. *)
Lemma pymupdf_update_found (t : pymupdf.tree) (n v : string)
    (self : PDFEngine) (w : fitz.Widget) :
  n ≠ "" →
  first_match (doc self) n = Some w →
  ∃ a,
    annot_at (doc self) (fitz.w_page w) (fitz.w_index w) = Some a
    ∧ Any.update_form_field (pymupdf.Widget_update t) n v self
      = (Py.Ok Py.None_,
         with_doc self
           match pymupdf.stored a (fitz.set_field_value w (Py.Str v)) with
           | Some x => pymupdf.write_field t (t (place w)) x (doc self)
           | None => doc self
           end).
Proof.
  intros Hn Hfind.
  destruct (first_match_place _ _ _ Hfind) as (a & Ha & Hw & Hname).
  exists a. split; [done|].
  rewrite any_update_form_field_first, Hfind.
  unfold pymupdf.Widget_update. simpl.
  assert (fitz.field_name w = Py.Str n) as -> by (rewrite Hw; exact Hname).
  rewrite truthy_Str by done. simpl. rewrite Ha.
  by destruct (pymupdf.stored a _).
Qed.

(** A call that finds nothing, or finds a widget without a name. *)
Lemma pymupdf_update_not_written (t : pymupdf.tree) (n v : string)
    (self : PDFEngine) :
  first_match (doc self) n = None ∨ n = "" →
  (Any.update_form_field (pymupdf.Widget_update t) n v self).2 = self.
Proof.
  intros Hcase. rewrite any_update_form_field_first.
  destruct (first_match (doc self) n) as [w|] eqn:Hfind; [|done].
  destruct Hcase as [Hnone | ->]; [done|].
  destruct (first_match_place _ _ _ Hfind) as (a & Ha & Hw & Hname).
  unfold pymupdf.Widget_update. simpl.
  assert (fitz.field_name w = Py.Str "") as -> by (rewrite Hw; exact Hname).
  simpl. apply with_doc_same.
Qed.


End OverFields.

(* ===================================================================== *)
(** ** [update_form_field]: which widget, which value, which result *)
(* ===================================================================== *)

Section UpdateOverLibrary.


Lemma stored_text (a : fitz.Annot) (w : fitz.Widget) (v : string) :
  fitz.field_type w = fitz.PDF_WIDGET_TYPE_TEXT →
  v ≠ "" →
  pymupdf.stored a (fitz.set_field_value w (Py.Str v)) = Some (Py.Str v).
Proof.
  intros Htype Hv. unfold pymupdf.stored. simpl. rewrite Htype. simpl.
  apply String.eqb_neq in Hv. by rewrite Hv.
Qed.



(** The annotation of the first match after a write to its field. *)
Lemma annot_at_written (t : pymupdf.tree) (w : fitz.Widget) (v : Py.val)
    (d : fitz.Document) :
  annot_at (pymupdf.write_field t (t (place w)) v d)
    (fitz.w_page w) (fitz.w_index w)
  = with_value v <$> annot_at d (fitz.w_page w) (fitz.w_index w).
Proof.
  rewrite annot_at_write_field.
  destruct (annot_at d _ _); [|done]. simpl.
  by rewrite decide_True by done.
Qed.

End UpdateOverLibrary.

(* ===================================================================== *)
(** ** The first match and what is written to it *)
(* ===================================================================== *)

Section FirstMatch.



(** C3: [update_form_field] hands back no success flag.  Its outcome is
    [None] when no widget matches and [None] when the library's [update] of
    the first match returns; when that [update] raises, the exception leaves
    the method as it is, there being no [try] around the call.  A returned
    value is therefore always [None]. *)
Theorem update_form_field_result
    (Widget_update : fitz.Widget → fitz.Document
                     → Py.result () * fitz.Document)
    (name value : string) (self : PDFEngine) :
  (Any.update_form_field Widget_update name value self).1
  = match first_match (doc self) name with
    | None => Py.Ok Py.None_
    | Some w =>
        match (Widget_update (fitz.set_field_value w (Py.Str value))
                 (doc self)).1 with
        | Py.Ok _ => Py.Ok Py.None_
        | Py.Raise e => Py.Raise e
        end
    end
  ∧ ∀ r, (Any.update_form_field Widget_update name value self).1 = Py.Ok r
         → r = Py.None_.
Proof.
  rewrite any_update_form_field_first.
  destruct (first_match (doc self) name) as [w|]; simpl.
  - destruct (Widget_update _ _) as [[u|e] d]; simpl.
    + split; [done|]. by intros r [= <-].
    + split; [done|]. by intros r.
  - split; [done|]. by intros r [= <-].
Qed.

(** A widget without a name is found by the empty name and refused by the
    library; the exception reaches the caller and nothing is written. *)
Example update_form_field_unnamed_raises :
  Any.update_form_field (pymupdf.Widget_update own_fields) "" "v"
    (engine_of doc_unnamed)
  = (Py.Raise (Py.ValueError "field name missing"), engine_of doc_unnamed).
Proof. reflexivity. Qed.

End FirstMatch.

(* ===================================================================== *)
(** ** Listing after an update *)
(* ===================================================================== *)

Section ListAfterUpdate.




End ListAfterUpdate.

(* ===================================================================== *)
(** ** Check boxes and radio buttons *)
(* ===================================================================== *)

Section Buttons.




(** A check box whose on-state is called "On" takes ["Yes"] as its
    on-state. *)
Example check_box_yes_is_on :
  let e := engine_of [page_of [check_box_on "agree" "Off"]] in
  let r := Any.update_form_field (pymupdf.Widget_update own_fields)
             "agree" "Yes" e in
  r.1 = Py.Ok Py.None_
  ∧ annot_at (doc r.2) 0 0 = Some (check_box_on "agree" "On").
Proof. split; reflexivity. Qed.

End Buttons.

(* ===================================================================== *)
(** ** The widgets of other fields *)
(* ===================================================================== *)

Section OtherFields.




End OtherFields.

(* ===================================================================== *)
(** ** Two updates of one field *)
(* ===================================================================== *)

Section Overwrite.

Lemma find_fmap_matches (r : fitz.Widget → fitz.Widget) (n : string)
    (l : list fitz.Widget) :
  (∀ u, fitz.field_name (r u) = fitz.field_name u) →
  List.find (matches n) (r <$> l) = r <$> List.find (matches n) l.
Proof.
  intros Hnames. induction l as [|u l IH]; [done|].
  cbn [fmap list_fmap List.find]. unfold matches at 1 3. rewrite Hnames.
  by destruct (Py.eq (fitz.field_name u) (Py.Str n)).
Qed.

Lemma first_match_write_field (t : pymupdf.tree) (field : nat * nat)
    (v : Py.val) (d : fitz.Document) (n : string) :
  first_match (pymupdf.write_field t field v d) n
  = refield t field v <$> first_match d n.
Proof.
  unfold first_match. rewrite all_widgets_write_field.
  apply find_fmap_matches. intros u. apply field_name_refield.
Qed.

Lemma write_field_twice (t : pymupdf.tree) (field : nat * nat)
    (v1 v2 : Py.val) (d : fitz.Document) :
  pymupdf.write_field t field v2 (pymupdf.write_field t field v1 d)
  = pymupdf.write_field t field v2 d.
Proof.
  unfold pymupdf.write_field. rewrite imap_imap. apply imap_ext.
  intros p pg _. simpl.
  destruct (fitz.pg_widgets pg) eqn:Hws; simpl; rewrite ?Hws; [done..|].
  f_equal. f_equal. rewrite imap_imap. apply imap_ext. intros i a _. simpl.
  by case_decide.
Qed.

Lemma stored_some (a : fitz.Annot) (w : fitz.Widget) (v : string) :
  v ≠ "" → ∃ x, pymupdf.stored a (fitz.set_field_value w (Py.Str v)) = Some x.
Proof.
  intros Hv. unfold pymupdf.stored. simpl.
  destruct (_ =? fitz.PDF_WIDGET_TYPE_CHECKBOX); [by eexists|].
  destruct (_ =? fitz.PDF_WIDGET_TYPE_RADIOBUTTON); [by eexists|].
  apply String.eqb_neq in Hv. rewrite Hv. by eexists.
Qed.

(** X1: two calls of [update_form_field] with the same name, the second
    with a value that is not empty, leave the engine as the second call
    alone would, and have its outcome. *)
Theorem update_form_field_overwrite (t : pymupdf.tree) (n v1 v2 : string)
    (self : PDFEngine) :
  v2 ≠ "" →
  Any.update_form_field (pymupdf.Widget_update t) n v2
    (Any.update_form_field (pymupdf.Widget_update t) n v1 self).2
  = Any.update_form_field (pymupdf.Widget_update t) n v2 self.
Proof.
  intros Hv2.
  destruct (first_match (doc self) n) as [w|] eqn:Hfind;
    [|by rewrite (pymupdf_update_not_written t n v1 self) by by left].
  destruct (decide (n = "")) as [Hn|Hn];
    [by rewrite (pymupdf_update_not_written t n v1 self) by by right|].
  destruct (pymupdf_update_found t n v1 self w Hn Hfind) as (a & Ha & ->).
  destruct (pymupdf_update_found t n v2 self w Hn Hfind) as (a2 & Ha2 & E2).
  assert (a2 = a) as -> by congruence. simpl.
  destruct (pymupdf.stored a (fitz.set_field_value w (Py.Str v1)))
    as [x1|] eqn:Hs1; [|by rewrite with_doc_same].
  rewrite E2.
  set (self1 := with_doc self _).
  assert (first_match (doc self1) n
          = Some (fitz.set_field_value w x1)) as Hfind1.
  { subst self1. simpl. rewrite first_match_write_field, Hfind. simpl.
    unfold refield. by rewrite decide_True. }
  destruct (pymupdf_update_found t n v2 self1 _ Hn Hfind1)
    as (a1 & Ha1 & ->).
  subst self1. simpl in *.
  rewrite annot_at_written, Ha in Ha1. injection Ha1 as <-.
  change (pymupdf.stored (with_value x1 a)
            (fitz.set_field_value (fitz.set_field_value w x1) (Py.Str v2)))
    with (pymupdf.stored a (fitz.set_field_value w (Py.Str v2))).
  destruct (stored_some a w v2 Hv2) as (x2 & ->).
  unfold with_doc. simpl. f_equal. f_equal.
  change (place (fitz.set_field_value w x1)) with (place w).
  apply write_field_twice.
Qed.

Lemma update_form_field_overwrite_witness :
  "Alan" ≠ ""
  ∧ Any.update_form_field (pymupdf.Widget_update own_fields) "first" "Alan"
      (Any.update_form_field (pymupdf.Widget_update own_fields) "first"
         "Kurt" (engine_of doc_form)).2
    = Any.update_form_field (pymupdf.Widget_update own_fields) "first"
        "Alan" (engine_of doc_form).
Proof.
  assert ("Alan" ≠ "") as H by discriminate.
  split; [exact H|].
  exact (update_form_field_overwrite own_fields "first" "Kurt" "Alan"
           (engine_of doc_form) H).
Defined.

End Overwrite.

(* ===================================================================== *)
(** ** [save] and [save_file] over the library's [Document.save] *)
(* ===================================================================== *)

Section SaveOverLibrary.

(** [save] as written above is this [save], with the library's call filled
    in. *)
Lemma save_as_any (path : string) (incremental : bool) (self : PDFEngine)
    (w : os.world) :
  save path incremental self w
  = Any.save
      (λ d p i fs,
         let r := fitz_io.Document_save d p i
                    {| os.files := fs; os.disk := os.disk w;
                       os.calls := os.calls w |} in
         (r.1, os.files r.2))
      path incremental self w.
Proof.
  unfold save, Any.save, fitz_io.Document_save.
  destruct w as [fs [|e] cs]; reflexivity.
Qed.

(** C8: [save] makes one call, the library's [Document.save] on the output
    path itself with the flag passed through; that is no save to a temporary
    file followed by a rename.  The outcome of [save] is the outcome of that
    call, an exception included, and the files are as that call left them. *)
Theorem save_one_library_call
    (Document_save : fitz.Document → string → bool → gmap string os.file
                     → Py.result () * gmap string os.file)
    (path : string) (incremental : bool) (self : PDFEngine) (w : os.world) :
  let r := Any.save Document_save path incremental self w in
  let lib := Document_save (doc self) path incremental (os.files w) in
  (∃ cs, os.calls r.2 = os.calls w ++ cs
         ∧ cs = [os.DocSave path incremental]
         ∧ os.temp_then_rename path cs = false)
  ∧ r.1 = lib.1
  ∧ os.files r.2 = lib.2
  ∧ os.disk r.2 = os.disk w.
Proof.
  intros r lib. subst r lib. unfold Any.save. simpl.
  split; [|done]. by eexists.
Qed.

(** X18: [save_file] never raises.  Without an engine, or with an empty
    path, it does nothing.  Otherwise it calls [save] once, not
    incrementally; it reports "Saved" when the library's call returns and
    the exception when it raises, and the files are as that call left
    them. *)
Theorem save_file_reports
    (Document_save : fitz.Document → string → bool → gmap string os.file
                     → Py.result () * gmap string os.file)
    (out : string) (ed : PDFEditor) (w : os.world) :
  let r := Any.save_file Document_save out ed w in
  match engine ed with
  | None => r = (Py.Ok None, w)
  | Some e =>
      if String.eqb out "" then r = (Py.Ok None, w)
      else
        let lib := Document_save (doc e) out false (os.files w) in
        r.1 = Py.Ok (Some match lib.1 with
                          | Py.Ok _ => Saved
                          | Py.Raise ex => SaveError ex
                          end)
        ∧ os.files r.2 = lib.2
        ∧ os.calls r.2 = os.calls w ++ [os.DocSave out false]
  end.
Proof.
  intros r. subst r. unfold Any.save_file.
  destruct (engine ed) as [e|]; [|done].
  destruct (String.eqb out ""); [done|].
  unfold Any.save. simpl.
  by destruct (Document_save (doc e) out false (os.files w)) as [[u|ex] fs].
Qed.

(** A library that refuses the path: the file stays as it was and the user
    is shown the exception. *)
Example save_file_refused :
  let refuse := λ (_ : fitz.Document) (_ : string) (_ : bool)
                  (fs : gmap string os.file),
                  (Py.Raise (Py.ValueError "save to original must be incremental"),
                   fs) in
  Any.save_file refuse "form.pdf" (editor_of doc_form 0) world_ok
  = (Py.Ok (Some (SaveError
                    (Py.ValueError "save to original must be incremental"))),
     {| os.files := ∅; os.disk := os.Accepts;
        os.calls := [os.DocSave "form.pdf" false] |}).
Proof. reflexivity. Qed.

End SaveOverLibrary.

(* ===================================================================== *)
(** ** [insert_text] with a text *)
(* ===================================================================== *)

Section InsertedRun.



End InsertedRun.

(* ===================================================================== *)
(** ** The updates of the dialog *)
(* ===================================================================== *)

Section DialogUpdates.

Lemma dict_get_unique (k v : string) (d : list (string * string)) :
  NoDup d.*1 → (k, v) ∈ d → dict_get k d = Some v.
Proof.
  intros Hnodup Hin. induction d as [|[k' v'] d IH]; [by inversion Hin|].
  rewrite fmap_cons in Hnodup. apply NoDup_cons in Hnodup as [Hk' Hnodup].
  unfold dict_get. cbn [List.find fst].
  destruct (String.eqb k' k) eqn:Hk.
  - apply String.eqb_eq in Hk. subst k'. simpl.
    apply elem_of_cons in Hin as [[= ->]|Hin]; [done|].
    destruct Hk'. simpl. apply list_elem_of_fmap. by exists (k, v).
  - apply elem_of_cons in Hin as [[= <- _]|Hin].
    + by rewrite String.eqb_refl in Hk.
    + by apply IH.
Qed.

(** X14: [accept] makes one assignment [self._updates[name] = val] per row.
    Starting from a dict, the result is a dict holding one item per name:
    for a name that has rows the text of its last row, and for any other
    name the item it had. *)
Theorem accept_one_item_per_name (dlg : FieldsDialog) :
  NoDup (_updates dlg).*1 →
  NoDup (get_updates (accept dlg)).*1
  ∧ ∀ name text,
      (name, text) ∈ get_updates (accept dlg)
      ↔ match last_row name (table dlg) with
        | Some last => text = last
        | None => (name, text) ∈ _updates dlg
        end.
Proof.
  intros Hnodup.
  assert (NoDup (get_updates (accept dlg)).*1) as Hnodup'
    by (unfold get_updates, accept; simpl; by apply fold_dict_set_NoDup).
  split; [exact Hnodup'|]. intros name text.
  assert (dict_get name (get_updates (accept dlg))
          = match last_row name (table dlg) with
            | Some last => Some last
            | None => dict_get name (_updates dlg)
            end) as Hget
    by (unfold get_updates, accept; simpl; apply fold_dict_set_get).
  split.
  - intros Hin. apply (dict_get_unique _ _ _ Hnodup') in Hin.
    rewrite Hget in Hin. destruct (last_row name (table dlg)).
    + congruence.
    + by apply dict_get_elem.
  - intros Hrow. apply dict_get_elem. rewrite Hget.
    destruct (last_row name (table dlg)).
    + by subst.
    + by apply dict_get_unique.
Qed.

(** The dialog over [doc_form], whose name "first" has two rows. *)
Lemma accept_one_item_per_name_witness :
  let dlg := {| table := [("first", "Ada"); ("last", "Lovelace");
                          ("agree", "Yes"); ("first", "Grace")];
                _updates := [] |} in
  NoDup (_updates dlg).*1
  ∧ get_updates (accept dlg)
    = [("first", "Grace"); ("last", "Lovelace"); ("agree", "Yes")]
  ∧ NoDup (get_updates (accept dlg)).*1
  ∧ ∀ name text,
      (name, text) ∈ get_updates (accept dlg)
      ↔ match last_row name (table dlg) with
        | Some last => text = last
        | None => (name, text) ∈ _updates dlg
        end.
Proof.
  intros dlg.
  assert (NoDup (_updates dlg).*1) as H by constructor.
  split; [exact H|]. split; [reflexivity|].
  exact (accept_one_item_per_name dlg H).
Defined.

End DialogUpdates.

(* ===================================================================== *)
(** ** The dialog, accepted *)
(* ===================================================================== *)

Section DialogAccepted.



End DialogAccepted.

(* ===================================================================== *)
(** ** What the dialog leaves alone *)
(* ===================================================================== *)

Section DialogFrame.

Lemma same_form_refl (d : fitz.Document) : same_form d d.
Proof. by repeat split. Qed.

Lemma same_form_trans (d1 d2 d3 : fitz.Document) :
  same_form d1 d2 → same_form d2 d3 → same_form d1 d3.
Proof.
  intros (? & ? & ? & ?) (? & ? & ? & ?). repeat split; congruence.
Qed.

Lemma update_form_field_same_form (n v : string) (self : PDFEngine) :
  same_form (doc (update_form_field n v self).2) (doc self).
Proof.
  rewrite update_form_field_effect. simpl.
  destruct (first_match (doc self) n) as [w|]; [|apply same_form_refl].
  simpl. split; [apply len_set_annot|]. split; [apply pg_text_set_annot|].
  rewrite all_widgets_set_annot, <- !list_fmap_compose.
  split; apply list_fmap_ext; intros i u _; simpl.
  - apply field_name_revalue.
  - apply field_type_revalue.
Qed.

Lemma update_each_same_form (items : list (string * string))
    (self : PDFEngine) :
  ∃ self',
    update_each items self = (Py.Ok (), self')
    ∧ same_form (doc self') (doc self).
Proof.
  revert self. induction items as [|[n t] items IH]; intros self.
  - exists self. split; [done | apply same_form_refl].
  - cbn [update_each].
    pose proof (update_form_field_same_form n t self) as Hstep.
    rewrite update_form_field_effect in Hstep |- *.
    cbn [snd] in Hstep.
    destruct (IH (match first_match (doc self) n with
                  | Some w =>
                      with_doc self
                        (set_annot (fitz.w_page w) (fitz.w_index w)
                           (with_value (Py.Str t)) (doc self))
                  | None => self
                  end)) as (self' & Hloop & Hsame).
    exists self'. split; [exact Hloop|].
    by apply (same_form_trans _ _ _ Hsame).
Qed.

(** X16: the form-field dialog, accepted or cancelled, adds and removes no
    page, leaves the inserted text of every page as it was, and changes no
    field name and no field type. *)
Theorem fields_dialog_frame (u : user) (ed : PDFEditor) (e : PDFEngine) :
  engine ed = Some e →
  ∃ e',
    engine (open_fields_dialog u ed).2 = Some e'
    ∧ same_form (doc e') (doc e).
Proof.
  intros He. unfold open_fields_dialog. rewrite He.
  rewrite list_form_fields_all. simpl.
  destruct (to_dict <$> List.filter named (all_widgets (doc e)))
    as [|f fields] eqn:Hfields.
  - exists e. split; [done | apply same_form_refl].
  - destruct (exec u (FieldsDialog_init (f :: fields))) as [[|] dlg].
    + exists e. split; [done | apply same_form_refl].
    + destruct (update_each_same_form (get_updates dlg) e)
        as (e1 & Hloop & Hsame).
      rewrite Hloop.
      destruct (show_page_keeps_doc (current_page e1) (with_engine ed e1) e1
                  eq_refl) as (e' & He' & Hdoc).
      exists e'. split; [exact He'|]. by rewrite Hdoc.
Qed.

Lemma fields_dialog_frame_witness :
  engine (editor_of doc_form 0) = Some (engine_of doc_form)
  ∧ ∃ e',
      engine (open_fields_dialog user_ok (editor_of doc_form 0)).2 = Some e'
      ∧ same_form (doc e') (doc (engine_of doc_form)).
Proof.
  split; [reflexivity|].
  exact (fields_dialog_frame user_ok (editor_of doc_form 0)
           (engine_of doc_form) eq_refl).
Defined.

End DialogFrame.

(* ===================================================================== *)
(** ** Where the two readings of [Widget.update] agree *)
(* ===================================================================== *)

Section Agreement.

Lemma alter_as_imap {A} (h : A → A) (i : nat) (l : list A) :
  alter h i l = imap (λ j x, if decide (j = i) then h x else x) l.
Proof.
  rewrite <- (imap_alter (λ _ x, x)).
  change (λ (_ : nat) (x : A), x) with (const (B:=nat) (@id A)).
  by rewrite imap_const, list_fmap_id.
Qed.

Lemma write_field_own_fields (p i : nat) (v : Py.val) (d : fitz.Document) :
  pymupdf.write_field own_fields (p, i) v d
  = set_annot p i (with_value v) d.
Proof.
  unfold pymupdf.write_field, set_annot. rewrite alter_as_imap.
  apply imap_ext. intros j pg _. simpl.
  destruct (decide (j = p)) as [->|Hj].
  - destruct (fitz.pg_widgets pg); [done..|]. do 2 f_equal.
    rewrite alter_as_imap. apply imap_ext. intros k a _. simpl.
    unfold own_fields.
    destruct (decide (k = i)) as [->|Hk].
    + by rewrite decide_True.
    + rewrite decide_False; [done|]. congruence.
  - destruct pg as [[| |ws] pt]; [done..|]. simpl. do 2 f_equal.
    transitivity (imap (const (B:=nat) (@id fitz.Annot)) ws);
      [|by rewrite imap_const, list_fmap_id].
    apply imap_ext. intros k a _. simpl. unfold own_fields.
    rewrite decide_False; [done|]. congruence.
Qed.

(** On a form without kids, for a name and a value that are not empty and a
    first match that is a text field, [update_form_field] over PyMuPDF's
    [update] is the [update_form_field] of the simple reading: the value is
    written as it is, to that widget, and the call returns. *)
Lemma update_form_field_agree (n v : string) (self : PDFEngine)
    (w : fitz.Widget) :
  n ≠ "" →
  v ≠ "" →
  first_match (doc self) n = Some w →
  fitz.field_type w = fitz.PDF_WIDGET_TYPE_TEXT →
  Any.update_form_field (pymupdf.Widget_update own_fields) n v self
  = update_form_field n v self.
Proof.
  intros Hn Hv Hfind Htype.
  destruct (pymupdf_update_found own_fields n v self w Hn Hfind)
    as (a & Ha & ->).
  rewrite (stored_text a w v Htype Hv), update_form_field_effect, Hfind.
  unfold own_fields, place. by rewrite write_field_own_fields.
Qed.

End Agreement.
